(** * CrackTime Analyzer: the analysis core and the CSV report, verified

    A shallow embedding of [cracktime_analyzer/core.py], of the CSV report of
    [cracktime_analyzer/report.py] and of the loop over the passwords of
    [cracktime_analyzer/cli.py].

    - Python [float] is IEEE-754 binary64: it is modelled by Rocq's primitive
      [float], whose operations are the hardware's.
    - Python [int] is [Z]; [str] is [string], a character being a code point
      below 256 (Latin-1), which covers every class test of the program.
    - Exceptions are values of [exn]; a computation that may raise returns a
      [result].
    - The C library functions behind [math.log2] and [**] are not part of the
      program: they are parameters of the development. *)

From Stdlib Require Import ZArith List String Ascii Bool Lia Floats.
From Stdlib Require Import DecimalString.
From Stdlib Require DecimalPos DecimalFacts.
Import ListNotations.

Set Warnings "-register-all".

Local Open Scope Z_scope.
Local Open Scope string_scope.

(** ** Exceptions and fallible computations *)

Inductive exn : Type :=
| ValueError (msg : string)
| OverflowError (msg : string)
| ZeroDivisionError (msg : string)
| TypeError (msg : string)
| OSError (msg : string)
| EstimatorError (msg : string).

(** [str(ex)], as interpolated by an f-string. *)
Definition exn_str (e : exn) : string :=
  match e with
  | ValueError m | OverflowError m | ZeroDivisionError m
  | TypeError m | OSError m | EstimatorError m => m
  end.

Inductive result (A : Type) : Type :=
| Ok (a : A)
| Raise (e : exn).
Arguments Ok {A} a.
Arguments Raise {A} e.

Definition bind {A B : Type} (c : result A) (k : A -> result B) : result B :=
  match c with
  | Ok a => k a
  | Raise e => Raise e
  end.

Notation "x <- c ;; k" := (bind c (fun x => k))
  (at level 61, c at next level, right associativity).

(** [try: c except Exception as ex: h ex] *)
Definition try_except {A : Type} (c : result A) (h : exn -> result A) : result A :=
  match c with
  | Ok a => Ok a
  | Raise e => h e
  end.

Definition is_ok {A : Type} (c : result A) : bool :=
  match c with Ok _ => true | Raise _ => false end.

(** ** Python values *)

(** The values that occur in analysis results and report rows. *)
Inductive pyval : Type :=
| VNone
| VBool (b : bool)
| VInt (z : Z)
| VFloat (f : float)
| VStr (s : string)
| VList (l : list pyval)
| VDict (d : list (string * pyval)).

(** A [dict] with string keys, in insertion order. *)
Definition dict : Type := list (string * pyval).

Fixpoint dict_get {V : Type} (d : list (string * V)) (k : string) : option V :=
  match d with
  | [] => None
  | (k', v) :: d' => if String.eqb k k' then Some v else dict_get d' k
  end.

(** [d.get(k, default)] *)
Definition dict_get_default {V : Type} (d : list (string * V)) (k : string) (default : V) : V :=
  match dict_get d k with
  | Some v => v
  | None => default
  end.

(** [d[k] = v]: an existing key keeps its position. *)
Fixpoint dict_set {V : Type} (d : list (string * V)) (k : string) (v : V) : list (string * V) :=
  match d with
  | [] => [(k, v)]
  | (k', v') :: d' =>
      if String.eqb k k' then (k', v) :: d' else (k', v') :: dict_set d' k v
  end.

(** ** Floats *)

Definition is_finite (x : float) : bool :=
  negb (is_nan x) && negb (is_infinity x).

(** The nearest double to an integer, ties to even. *)
Definition float_of_Z (z : Z) : float :=
  SF2Prim (binary_normalize prec emax z 0 false).

(** [float(n)] for an [int] n. *)
Definition float_of_int (z : Z) : result float :=
  let f := float_of_Z z in
  if is_infinity f then Raise (OverflowError "int too large to convert to float")
  else Ok f.

(** [a / b] for two [int]s.  CPython divides the two operands as doubles when
    both are below 2^53, which every length of a string in memory is. *)
Definition int_truediv (a b : Z) : result float :=
  if (b =? 0)%Z then Raise (ZeroDivisionError "division by zero")
  else Ok (float_of_Z a / float_of_Z b)%float.

(** [x / y] for two [float]s. *)
Definition float_truediv (x y : float) : result float :=
  if (y =? 0)%float then Raise (ZeroDivisionError "float division by zero")
  else Ok (x / y)%float.

(** The integer part of a finite float, towards zero. *)
Definition trunc_SF (x : spec_float) : Z :=
  match x with
  | S754_finite s m e =>
      let a := if (0 <=? e)%Z then Z.shiftl (Zpos m) e else Z.shiftr (Zpos m) (- e) in
      if s then - a else a
  | _ => 0
  end.

(** [int(x)] for a [float] x. *)
Definition int_of_float (x : float) : result Z :=
  if is_nan x then Raise (ValueError "cannot convert float NaN to integer")
  else if is_infinity x then Raise (OverflowError "cannot convert float infinity to integer")
  else Ok (trunc_SF (Prim2SF x)).

(** [max(a, b)]: the first of the largest. *)
Definition py_max (a b : float) : float :=
  if (a <? b)%float then b else a.

(** *** Decimal rendering *)

(** The integer nearest to [m * 2^e * 10^d], ties to even. *)
Definition scaled_round (m : positive) (e : Z) (d : nat) : Z :=
  let p10 := 10 ^ Z.of_nat d in
  if (0 <=? e)%Z then Zpos m * 2 ^ e * p10
  else
    let den := 2 ^ (- e) in
    let (q, r) := Z.div_eucl (Zpos m * p10) den in
    match (2 * r ?= den)%Z with
    | Lt => q
    | Gt => q + 1
    | Eq => if Z.even q then q else q + 1
    end.

Definition dec_of_Z (z : Z) : string := NilZero.string_of_int (Z.to_int z).

Fixpoint str_repeat (s : string) (n : nat) : string :=
  match n with
  | O => ""
  | S n' => s ++ str_repeat s n'
  end.

(** [n / 10^d] written with exactly [d] decimals, for [0 <= n]. *)
Definition fixed_digits (n : Z) (d : nat) : string :=
  let p10 := 10 ^ Z.of_nat d in
  let frac := dec_of_Z (n mod p10) in
  match d with
  | O => dec_of_Z n
  | _ => dec_of_Z (n / p10) ++ "." ++ str_repeat "0" (d - String.length frac) ++ frac
  end.

(** [f"{x:.df}"] *)
Definition format_f (d : nat) (x : float) : string :=
  match Prim2SF x with
  | S754_nan => "nan"
  | S754_infinity s => if s then "-inf" else "inf"
  | S754_zero s => (if s then "-" else "") ++ fixed_digits 0 d
  | S754_finite s m e => (if s then "-" else "") ++ fixed_digits (scaled_round m e d) d
  end.

(** [round(x, d)] for [0 <= d]: the double nearest to the decimal that
    [format_f d x] writes. *)
Definition py_round (x : float) (d : nat) : float :=
  match Prim2SF x with
  | S754_finite s m e =>
      match scaled_round m e d with
      | Zpos n =>
          SF2Prim (SFdiv prec emax (S754_finite s n 0)
                     (S754_finite false (Z.to_pos (10 ^ Z.of_nat d)) 0))
      | _ => if s then neg_zero else zero
      end
  | _ => x
  end.

(** ** Strings *)

(** Iterating over a [str] yields its characters as one-character strings. *)
Fixpoint chars (s : string) : list string :=
  match s with
  | EmptyString => []
  | String c s' => String c "" :: chars s'
  end.

(** [any(f(c) for c in s)] *)
Fixpoint str_any (f : ascii -> bool) (s : string) : bool :=
  match s with
  | EmptyString => false
  | String c s' => f c || str_any f s'
  end.

(** [c in set(s)] *)
Fixpoint str_mem (c : ascii) (s : string) : bool :=
  match s with
  | EmptyString => false
  | String c' s' => Ascii.eqb c c' || str_mem c s'
  end.

(** [sep.join(l)] for a list of strings. *)
Fixpoint str_join (sep : string) (l : list string) : string :=
  match l with
  | [] => ""
  | [s] => s
  | s :: l' => s ++ sep ++ str_join sep l'
  end.

Definition str_of_codes (l : list nat) : string :=
  fold_right (fun n s => String (ascii_of_nat n) s) "" l.

Definition code_between (lo hi : N) (c : ascii) : bool :=
  let n := N_of_ascii c in ((lo <=? n) && (n <=? hi))%N.

(** [str.isupper], [str.islower] and [str.isdigit] on one character, from the
    Unicode properties Uppercase, Lowercase and Numeric_Type=Digit of the code
    points below 256. *)
Definition isupper (c : ascii) : bool :=
  code_between 65 90 c || code_between 192 214 c || code_between 216 222 c.

Definition islower (c : ascii) : bool :=
  code_between 97 122 c || code_between 170 170 c || code_between 181 181 c
  || code_between 186 186 c || code_between 223 246 c || code_between 248 255 c.

Definition isdigit (c : ascii) : bool :=
  code_between 48 57 c || code_between 178 179 c || code_between 185 185 c.

(** The constants of Python's [string] module. *)
Module PyString.
Definition digits : string := "0123456789".
Definition ascii_lowercase : string := "abcdefghijklmnopqrstuvwxyz".
Definition ascii_uppercase : string := "ABCDEFGHIJKLMNOPQRSTUVWXYZ".
Definition ascii_letters : string := ascii_lowercase ++ ascii_uppercase.
Definition punctuation : string :=
  "!" ++ str_of_codes [34%nat] ++ "#$%&'()*+,-./:;<=>?@[\]^_`{|}~".
(** space, tab, line feed, carriage return, vertical tab, form feed *)
Definition whitespace : string := str_of_codes [32; 9; 10; 13; 11; 12]%nat.
Definition printable : string := digits ++ ascii_letters ++ punctuation ++ whitespace.
End PyString.

(** ** Numbers handed back by the external estimator *)

Inductive num : Type :=
| NInt (z : Z)
| NFloat (f : float).

(** [float(v)] *)
Definition py_float (v : num) : result float :=
  match v with
  | NInt z => float_of_int z
  | NFloat f => Ok f
  end.

(** [int(v)] *)
Definition py_int (v : num) : result Z :=
  match v with
  | NInt z => Ok z
  | NFloat f => int_of_float f
  end.

(** ** cracktime_analyzer/core.py *)

Section Core.

(** The C library's [log2] and [pow], reached through [math.log2] and [**]. *)
Variable libm_log2 : float -> float.
Variable libm_pow : float -> float -> float.

(** The optional import of the estimator: whether it succeeded, and the
    estimator itself, which returns a mapping from keys to numbers or
    raises. *)
Variable _HAS_ZXCVBN : bool.
Variable zxcvbn : string -> result (list (string * num)).

(** [math.log2(x)] for a float: CPython's [m_log2] under [math_1]. *)
Definition math_log2 (x : float) : result float :=
  let r :=
    if is_nan x then x
    else if is_infinity x then (if (0 <? x)%float then x else nan)
    else if (0 <? x)%float then libm_log2 x
    else if (x =? 0)%float then neg_infinity
    else nan in
  if is_nan r && negb (is_nan x) then Raise (ValueError "math domain error")
  else if is_infinity r && is_finite x then Raise (ValueError "math domain error")
  else Ok r.

(** [2 ** w] for a float [w]: CPython's [float_pow] at the base 2.0, whose
    branches for a NaN, infinite, zero, negative or unit base are never
    taken.  A result of [pow] that is infinite is reported as overflow. *)
Definition pow2 (w : float) : result float :=
  if (w =? 0)%float then Ok 1%float
  else if is_nan w then Ok w
  else if is_infinity w then Ok (if (0 <? w)%float then abs w else 0%float)
  else
    let x := libm_pow 2 w in
    if is_infinity x then Raise (OverflowError "(34, 'Numerical result out of range')")
    else Ok x.

(** The loop [for ch in password: freq[ch] = freq.get(ch, 0) + 1]. *)
Definition count_chars (password : string) : list (string * Z) :=
  fold_left (fun freq ch => dict_set freq ch (dict_get_default freq ch 0 + 1))
    (chars password) [].

(** One turn of the loop over [freq.values()]. *)
Definition entropy_step (length : Z) (acc : result float) (count : Z) : result float :=
  entropy_per_char <- acc ;;
  p <- int_truediv count length ;;
  l <- math_log2 p ;;
  Ok (entropy_per_char - p * l)%float.

Definition _shannon_entropy_bits (password : string) : result float :=
  match password with
  | EmptyString => Ok 0%float
  | _ =>
      let freq := count_chars password in
      let length := Z.of_nat (String.length password) in
      entropy_per_char <- fold_left (entropy_step length) (map snd freq) (Ok 0%float) ;;
      n <- float_of_int length ;;
      Ok (entropy_per_char * n)%float
  end.

Definition _mask_password (pw : string) : string :=
  match pw with
  | EmptyString => ""
  | _ =>
      let len := String.length pw in
      if (len <=? 2)%nat then str_repeat "*" len
      else substring 0 1 pw ++ str_repeat "*" (len - 2) ++ substring (len - 1) 1 pw
  end.

Definition _heuristic_score (entropy_bits : float) (length : Z) : Z :=
  if (length =? 0)%Z then 0
  else if (entropy_bits <? 28)%float then 0
  else if (entropy_bits <? 36)%float then 1
  else if (entropy_bits <? 60)%float then 2
  else if (entropy_bits <? 80)%float then 3
  else 4.

(** The set [symbols] of [analyze_password]. *)
Definition in_symbols (c : ascii) : bool :=
  str_mem c PyString.printable
  && negb (str_mem c PyString.ascii_letters)
  && negb (str_mem c PyString.digits).

(** The local variables that the estimation branches assign. *)
Record estimate : Type := {
  est_entropy_bits : float;
  est_guesses : option float;
  est_score : option Z;
  est_notes : list pyval
}.

Definition fallback_estimate (pw : string) (length : Z) (notes : list pyval)
  : result estimate :=
  entropy_bits <- _shannon_entropy_bits pw ;;
  p <- pow2 entropy_bits ;;
  let guesses := py_max 1 p in
  let score := _heuristic_score entropy_bits length in
  Ok {| est_entropy_bits := entropy_bits; est_guesses := Some guesses;
        est_score := Some score; est_notes := notes |}.

Definition zxcvbn_estimate (pw : string) (notes : list pyval) : result estimate :=
  zres <- zxcvbn pw ;;
  d <- _shannon_entropy_bits pw ;;
  entropy_bits <- py_float (dict_get_default zres "entropy" (NFloat d)) ;;
  p <- pow2 entropy_bits ;;
  guesses <- py_float (dict_get_default zres "guesses" (NFloat (py_max 1 p))) ;;
  score <- py_int (dict_get_default zres "score" (NInt 0)) ;;
  Ok {| est_entropy_bits := entropy_bits; est_guesses := Some guesses;
        est_score := Some score; est_notes := notes |}.

Definition analyze_password (password : string) : result dict :=
  let pw := password in
  let length := Z.of_nat (String.length pw) in
  let has_upper := str_any isupper pw in
  let has_lower := str_any islower pw in
  let has_digit := str_any isdigit pw in
  let has_symbol := str_any in_symbols pw in
  let charset_size := 0 in
  let charset_size := if has_lower then charset_size + 26 else charset_size in
  let charset_size := if has_upper then charset_size + 26 else charset_size in
  let charset_size := if has_digit then charset_size + 10 else charset_size in
  let charset_size := if has_symbol then charset_size + 32 else charset_size in
  let notes : list pyval := [] in
  est <-
    (if _HAS_ZXCVBN then
       try_except (zxcvbn_estimate pw notes)
         (fun ex =>
            fallback_estimate pw length
              (notes ++ [VStr ("zxcvbn error: " ++ exn_str ex
                               ++ "; falling back to Shannon entropy")]))
     else
       est <- fallback_estimate pw length notes ;;
       Ok {| est_entropy_bits := est_entropy_bits est;
             est_guesses := est_guesses est;
             est_score := est_score est;
             est_notes := est_notes est
               ++ [VStr "zxcvbn not available; used Shannon entropy & heuristic score"] |}) ;;
  guesses <-
    match est_guesses est with
    | Some g => z <- int_of_float g ;; Ok (VInt z)
    | None => Ok VNone
    end ;;
  Ok [ ("password_masked", VStr (_mask_password pw));
       ("length", VInt length);
       ("has_upper", VBool has_upper);
       ("has_lower", VBool has_lower);
       ("has_digit", VBool has_digit);
       ("has_symbol", VBool has_symbol);
       ("charset_size_est", VInt charset_size);
       ("entropy_bits", VFloat (py_round (est_entropy_bits est) 3));
       ("guesses", guesses);
       ("score", match est_score est with Some s => VInt s | None => VNone end);
       ("notes", VList (est_notes est)) ].

(** The ways in which the estimation branches of [analyze_password] end with
    their variables assigned: without the estimator, with its answer, and
    recovered from its failure. *)
Inductive estimated (pw : string) : estimate -> Prop :=
| est_unavailable (e p : float) :
    _HAS_ZXCVBN = false ->
    _shannon_entropy_bits pw = Ok e ->
    pow2 e = Ok p ->
    estimated pw
      {| est_entropy_bits := e;
         est_guesses := Some (py_max 1 p);
         est_score := Some (_heuristic_score e (Z.of_nat (String.length pw)));
         est_notes := [VStr "zxcvbn not available; used Shannon entropy & heuristic score"] |}
| est_answered (est : estimate) :
    _HAS_ZXCVBN = true ->
    zxcvbn_estimate pw [] = Ok est ->
    estimated pw est
| est_recovered (ex : exn) (e p : float) :
    _HAS_ZXCVBN = true ->
    zxcvbn_estimate pw [] = Raise ex ->
    _shannon_entropy_bits pw = Ok e ->
    pow2 e = Ok p ->
    estimated pw
      {| est_entropy_bits := e;
         est_guesses := Some (py_max 1 p);
         est_score := Some (_heuristic_score e (Z.of_nat (String.length pw)));
         est_notes := [VStr ("zxcvbn error: " ++ exn_str ex
                             ++ "; falling back to Shannon entropy")] |}.

(** The estimate comes from the Shannon path. *)
Definition from_fallback (pw : string) : Prop :=
  _HAS_ZXCVBN = false \/ exists ex, zxcvbn_estimate pw [] = Raise ex.


Definition estimator_score_ok : Prop :=
  forall pw zres v s,
    zxcvbn pw = Ok zres -> dict_get zres "score" = Some v ->
    py_int v = Ok s -> 0 <= s <= 4.

(** The sum of the cardinalities of the classes present. *)
Definition class_cardinalities (has_lower has_upper has_digit has_symbol : bool) : Z :=
  (if has_lower then 26 else 0) + (if has_upper then 26 else 0)
  + (if has_digit then 10 else 0) + (if has_symbol then 32 else 0).

(** The dictionary that [analyze_password] returns, given the estimate and
    the cell of the guesses. *)
Definition analysis_record (pw : string) (est : estimate) (guesses : pyval) : dict :=
  [ ("password_masked", VStr (_mask_password pw));
    ("length", VInt (Z.of_nat (String.length pw)));
    ("has_upper", VBool (str_any isupper pw));
    ("has_lower", VBool (str_any islower pw));
    ("has_digit", VBool (str_any isdigit pw));
    ("has_symbol", VBool (str_any in_symbols pw));
    ("charset_size_est",
      VInt (class_cardinalities (str_any islower pw) (str_any isupper pw)
              (str_any isdigit pw) (str_any in_symbols pw)));
    ("entropy_bits", VFloat (py_round (est_entropy_bits est) 3));
    ("guesses", guesses);
    ("score", match est_score est with Some s => VInt s | None => VNone end);
    ("notes", VList (est_notes est)) ].

(** [int(guesses) if guesses is not None else None] *)
Definition guesses_cell (guesses : option float) : result pyval :=
  match guesses with
  | Some g => z <- int_of_float g ;; Ok (VInt z)
  | None => Ok VNone
  end.

Definition _human_readable_seconds (seconds : float) : string :=
  if (seconds <? 1)%float then format_f 3 seconds ++ " seconds"
  else
    let minute := 60%float in
    let hour := (60 * minute)%float in
    let day := (24 * hour)%float in
    let year := (365.25 * day)%float in
    if (seconds <? minute)%float then format_f 2 seconds ++ " seconds"
    else if (seconds <? hour)%float then format_f 2 (seconds / 60)%float ++ " minutes"
    else if (seconds <? day)%float then format_f 2 (seconds / hour)%float ++ " hours"
    else if (seconds <? year)%float then format_f 2 (seconds / day)%float ++ " days"
    else format_f 2 (seconds / year)%float ++ " years".

Definition estimate_crack_time_from_guesses (guesses guesses_per_second : float)
  : result dict :=
  if (guesses_per_second <=? 0)%float
  then Raise (ValueError "guesses_per_second must be > 0")
  else
    seconds <- float_truediv guesses guesses_per_second ;;
    let human := _human_readable_seconds seconds in
    Ok [ ("seconds", VFloat seconds);
         ("human_readable", VStr human);
         ("guesses_per_second", VFloat guesses_per_second) ].

Definition CRACK_SPEED_PRESETS : list (string * float) :=
  [ ("conservative_cpu", 1e3%float); ("mid_gpu", 1e9%float); ("fast_gpu", 1e10%float) ].

End Core.

(** ** cracktime_analyzer/report.py *)

(** A CSV file is modelled by the rows handed to the [csv] writer, each a list
    of cells; the text encoding of a row is the [csv] module's business. *)
Definition csv_row : Type := list pyval.

Record filesystem : Type := {
  fs_files : list (string * list csv_row);
  (** the paths that [open] refuses *)
  fs_denied : string -> bool
}.

(** A command that reads and writes files and may raise: the files it wrote
    before raising stay written. *)
Definition io (A : Type) : Type := filesystem -> filesystem * result A.

Definition io_ret {A : Type} (a : A) : io A := fun fs => (fs, Ok a).

Definition io_bind {A B : Type} (c : io A) (k : A -> io B) : io B :=
  fun fs =>
    match c fs with
    | (fs', Ok a) => k a fs'
    | (fs', Raise e) => (fs', Raise e)
    end.

Definition io_lift {A : Type} (c : result A) : io A := fun fs => (fs, c).

Notation "c1 ;;; c2" := (io_bind c1 (fun _ => c2))
  (at level 62, right associativity).

(** [open(filename, "w")]: the file is created or emptied. *)
Definition open_w (filename : string) : io unit :=
  fun fs =>
    if fs_denied fs filename
    then (fs, Raise (OSError ("[Errno 13] Permission denied: '" ++ filename ++ "'")))
    else ({| fs_files := dict_set (fs_files fs) filename [];
             fs_denied := fs_denied fs |}, Ok tt).

(** [csv.writer(f).writerow(row)], on a device that takes every row: a write
    that the device or the encoding refuses is outside this model, which
    therefore says nothing on whether a write returns. *)
Definition writerow (filename : string) (row : csv_row) : io unit :=
  fun fs =>
    ({| fs_files := dict_set (fs_files fs) filename
                      (dict_get_default (fs_files fs) filename [] ++ [row])%list;
        fs_denied := fs_denied fs |}, Ok tt).

Definition str_list_mem (k : string) (l : list string) : bool :=
  existsb (String.eqb k) l.

(** [csv.DictWriter._dict_to_list], with the default [extrasaction="raise"]
    and [restval=""]. *)
Definition dict_to_list (fieldnames : list string) (rowdict : dict) : result csv_row :=
  match filter (fun kv => negb (str_list_mem (fst kv) fieldnames)) rowdict with
  | [] => Ok (map (fun k => dict_get_default rowdict k (VStr "")) fieldnames)
  | _ => Raise (ValueError "dict contains fields not in fieldnames")
  end.

(** [csv.DictWriter(f, fieldnames).writerow(rowdict)] *)
Definition dictwriter_writerow (filename : string) (fieldnames : list string)
  (rowdict : dict) : io unit :=
  io_bind (io_lift (dict_to_list fieldnames rowdict)) (writerow filename).

(** [csv.DictWriter(f, fieldnames).writeheader()] *)
Definition dictwriter_writeheader (filename : string) (fieldnames : list string) : io unit :=
  writerow filename (map VStr fieldnames).

(** Truth value of an object. *)
Definition truthy (v : pyval) : bool :=
  match v with
  | VNone => false
  | VBool b => b
  | VInt z => negb (z =? 0)%Z
  | VFloat f => negb (f =? 0)%float
  | VStr s => negb (String.eqb s "")
  | VList l => match l with [] => false | _ => true end
  | VDict d => match d with [] => false | _ => true end
  end.

(** [type(v).__name__] *)
Definition type_name (v : pyval) : string :=
  match v with
  | VNone => "NoneType"
  | VBool _ => "bool"
  | VInt _ => "int"
  | VFloat _ => "float"
  | VStr _ => "str"
  | VList _ => "list"
  | VDict _ => "dict"
  end.

(** The items of a list from index [i] on, all of which [str.join] wants to
    be strings: the first that is not one stops it, with its index and its
    type in the message. *)
Fixpoint str_items_from (i : Z) (l : list pyval) : result (list string) :=
  match l with
  | [] => Ok []
  | VStr s :: l' => ss <- str_items_from (i + 1) l' ;; Ok (s :: ss)
  | v :: _ =>
      Raise (TypeError ("sequence item " ++ dec_of_Z i ++ ": expected str instance, "
                        ++ type_name v ++ " found"))
  end.

Definition str_items (l : list pyval) : result (list string) := str_items_from 0 l.

(** [sep.join(v)] for an object [v]. *)
Definition py_join (sep : string) (v : pyval) : result string :=
  match v with
  | VList l => ss <- str_items l ;; Ok (str_join sep ss)
  | VStr s => Ok (str_join sep (chars s))
  | VDict d => Ok (str_join sep (map fst d))
  | _ => Raise (TypeError "can only join an iterable")
  end.

Definition csv_fieldnames : list string :=
  ["password_id"; "password_masked"; "length"; "entropy_bits"; "guesses"; "score"; "notes"].

(** The dictionary that the loop of [save_csv_report] writes for the [i]-th
    result [r]. *)
Definition csv_rowdict (i : Z) (r : dict) : result dict :=
  notes <-
    (if truthy (dict_get_default r "notes" VNone)
     then s <- py_join " | " (dict_get_default r "notes" (VList [])) ;; Ok (VStr s)
     else Ok (VStr "")) ;;
  Ok [ ("password_id", VStr ("p" ++ dec_of_Z i));
       ("password_masked", dict_get_default r "password_masked" (VStr ""));
       ("length", dict_get_default r "length" (VStr ""));
       ("entropy_bits", dict_get_default r "entropy_bits" (VStr ""));
       ("guesses", dict_get_default r "guesses" (VStr ""));
       ("score", dict_get_default r "score" (VStr ""));
       ("notes", notes) ].

(** [for i, r in enumerate(results, start=i): writer.writerow({...})] *)
Fixpoint write_results (filename : string) (fieldnames : list string) (i : Z)
  (results : list dict) : io unit :=
  match results with
  | [] => io_ret tt
  | r :: results' =>
      io_bind (io_lift (csv_rowdict i r)) (dictwriter_writerow filename fieldnames) ;;;
      write_results filename fieldnames (i + 1) results'
  end.

Definition save_csv_report (meta : dict) (results : list dict) (filename : string) : io unit :=
  match results with
  | [] =>
      open_w filename ;;;
      writerow filename
        (map VStr ["password_id"; "password_masked"; "length"; "entropy_bits";
                   "guesses"; "score"; "notes"])
  | _ =>
      let fieldnames := csv_fieldnames in
      open_w filename ;;;
      dictwriter_writeheader filename fieldnames ;;;
      write_results filename fieldnames 1 results
  end.

(** The rows of a file, if it exists. *)
Definition read_rows (fs : filesystem) (filename : string) : option (list csv_row) :=
  dict_get (fs_files fs) filename.

(** ** cracktime_analyzer/cli.py: the loop of [main] over the passwords

    [main] parses its arguments, analyses the passwords in a loop, prints the
    results and saves the reports.  The loop is modelled here, from the parsed
    arguments on; printing and the time-stamped file names are not. *)

(** The namespace that [parser.parse_args] returns. *)
Record cli_args : Type := {
  args_passwords : list string;
  args_preset : string;
  args_custom_speed : option float;
  args_output_prefix : option string
}.

(** The exceptions of the command line: those of the core, and the
    [KeyError] of a subscript. *)
Inductive cli_exn : Type :=
| CoreError (e : exn)
| KeyError (key : string).

Inductive cli_result (A : Type) : Type :=
| Returned (a : A)
| Raised (e : cli_exn).
Arguments Returned {A} a.
Arguments Raised {A} e.

Definition cli_bind {A B : Type} (c : cli_result A) (k : A -> cli_result B) : cli_result B :=
  match c with
  | Returned a => k a
  | Raised e => Raised e
  end.

Definition cli_lift {A : Type} (c : result A) : cli_result A :=
  match c with
  | Ok a => Returned a
  | Raise e => Raised (CoreError e)
  end.

(** [d[k]] *)
Definition dict_item (d : dict) (k : string) : cli_result pyval :=
  match dict_get d k with
  | Some v => Returned v
  | None => Raised (KeyError k)
  end.

Section Cli.

Variable libm_log2 : float -> float.
Variable libm_pow : float -> float -> float.
Variable _HAS_ZXCVBN : bool.
Variable zxcvbn : string -> result (list (string * num)).

(** [float(s)] for a string [s]: Python's parser of decimal literals, which
    the program never reaches. *)
Variable float_of_str : string -> result float.

(** [float(v)] for an object. *)
Definition float_of_pyval (v : pyval) : result float :=
  match v with
  | VNone =>
      Raise (TypeError "float() argument must be a string or a real number, not 'NoneType'")
  | VBool b => Ok (if b then 1%float else 0%float)
  | VInt z => float_of_int z
  | VFloat f => Ok f
  | VStr s => float_of_str s
  | VList _ =>
      Raise (TypeError "float() argument must be a string or a real number, not 'list'")
  | VDict _ =>
      Raise (TypeError "float() argument must be a string or a real number, not 'dict'")
  end.

(** [args.custom_speed if args.custom_speed and args.custom_speed > 0
     else CRACK_SPEED_PRESETS.get(args.preset, 1e3)] *)
Definition select_speed (args : cli_args) : float :=
  match args_custom_speed args with
  | Some custom =>
      if negb (custom =? 0)%float && (0 <? custom)%float then custom
      else dict_get_default CRACK_SPEED_PRESETS (args_preset args) 1e3%float
  | None => dict_get_default CRACK_SPEED_PRESETS (args_preset args) 1e3%float
  end.

(** The body of the loop for one password. *)
Definition cli_entry (args : cli_args) (pw : string) : cli_result dict :=
  cli_bind (cli_lift (analyze_password libm_log2 libm_pow _HAS_ZXCVBN zxcvbn pw)) (fun r =>
  let guesses := dict_get_default r "guesses" (VInt 1) in
  let speed := select_speed args in
  cli_bind (cli_lift (float_of_pyval guesses)) (fun g =>
  cli_bind (cli_lift (estimate_crack_time_from_guesses g speed)) (fun timeinfo =>
  cli_bind (dict_item timeinfo "seconds") (fun seconds =>
  let r := dict_set r "crack_time_seconds" seconds in
  cli_bind (dict_item timeinfo "human_readable") (fun human =>
  let r := dict_set r "crack_time_human" human in
  cli_bind (dict_item timeinfo "guesses_per_second") (fun rate =>
  let r := dict_set r "assumptions"
             (VDict [("preset", VStr (args_preset args)); ("guesses_per_second", rate)]) in
  Returned r)))))).

(** [for pw in args.passwords: ...; results.append(r)] *)
Fixpoint cli_loop (args : cli_args) (passwords : list string) (results : list dict)
  : cli_result (list dict) :=
  match passwords with
  | [] => Returned results
  | pw :: passwords' =>
      cli_bind (cli_entry args pw) (fun r => cli_loop args passwords' (results ++ [r]))
  end.

(** The list [results] of [main] when its first loop is over. *)
Definition cli_results (args : cli_args) : cli_result (list dict) :=
  cli_loop args (args_passwords args) [].

End Cli.

(** The three keys that the loop of [main] adds to a result, for the guesses
    [g] as a float. *)
Definition cli_timing (args : cli_args) (g : float) : dict :=
  [ ("crack_time_seconds", VFloat (g / select_speed args)%float);
    ("crack_time_human", VStr (_human_readable_seconds (g / select_speed args)%float));
    ("assumptions",
      VDict [ ("preset", VStr (args_preset args));
              ("guesses_per_second", VFloat (select_speed args)) ]) ].

(** ** The cells of a report row *)

(** The text of the notes column for a result, as [save_csv_report] computes
    it. *)
Definition csv_notes (r : dict) : result string :=
  if truthy (dict_get_default r "notes" VNone)
  then py_join " | " (dict_get_default r "notes" (VList []))
  else Ok "".

(** The row of the [i]-th result, given the text of its notes. *)
Definition csv_cells (i : Z) (r : dict) (notes : string) : csv_row :=
  [ VStr ("p" ++ dec_of_Z i);
    dict_get_default r "password_masked" (VStr "");
    dict_get_default r "length" (VStr "");
    dict_get_default r "entropy_bits" (VStr "");
    dict_get_default r "guesses" (VStr "");
    dict_get_default r "score" (VStr "");
    VStr notes ].

(** The rows of the results, numbered from [i] on. *)
Fixpoint csv_numbered (i : Z) (results : list dict) (notes : list string) : list csv_row :=
  match results, notes with
  | r :: results', t :: notes' => csv_cells i r t :: csv_numbered (i + 1) results' notes'
  | _, _ => []
  end.

(** A row that starts with the identifier of index [i], the mask of [pw] and
    the length of [pw]. *)
Definition masked_row (i : Z) (pw : string) (row : csv_row) : Prop :=
  exists cells,
    row = VStr ("p" ++ dec_of_Z i) :: VStr (_mask_password pw)
          :: VInt (Z.of_nat (String.length pw)) :: cells.

Definition csv_header : csv_row := map VStr csv_fieldnames.

(** A reference parser of decimal literals for examples: it accepts none. *)
Definition no_float_of_str (s : string) : result float :=
  Raise (ValueError ("could not convert string to float: '" ++ s ++ "'")).

(** ** The formulas of the specification *)

(** *** A number written in decimal *)

(** The value of a decimal digit. *)
Definition digit_value (c : ascii) : option Z :=
  let n := Z.of_N (N_of_ascii c) in
  if ((48 <=? n) && (n <=? 57))%Z then Some (n - 48) else None.

(** The number that the digits of [s] write after those of [acc]. *)
Fixpoint digits_value (s : string) (acc : Z) : option Z :=
  match s with
  | EmptyString => Some acc
  | String c s' =>
      match digit_value c with
      | Some v => digits_value s' (10 * acc + v)
      | None => None
      end
  end.

(** [s] writes the integer [n], for [0 <= n], as [str(n)] does: in decimal
    digits, at least one, with no zero in front but for zero itself. *)
Definition writes_integer (n : Z) (s : string) : Prop :=
  digits_value s 0 = Some n
  /\ s <> ""
  /\ forall s', s = String "0" s' -> s' = "".

(** [s] writes [n / 10^d] with exactly [d] decimals: the integer part, and
    for [0 < d] a point and [d] digits. *)
Definition writes_fixed (d : nat) (n : Z) (s : string) : Prop :=
  exists (ip fp : string) (a b : Z),
    s = ip ++ match d with O => "" | _ => "." ++ fp end
    /\ String.length fp = d
    /\ writes_integer a ip
    /\ digits_value fp 0 = Some b
    /\ n = a * 10 ^ Z.of_nat d + b.

(** [n] is the integer nearest to [m * 2^e * 10^d], and the even one of the
    two when they are as near: with the value as the fraction [num / den],
    [|n - num / den| <= 1/2]. *)
Definition nearest_even (m : positive) (e : Z) (d : nat) (n : Z) : Prop :=
  let num := Zpos m * 10 ^ Z.of_nat d * 2 ^ Z.max e 0 in
  let den := 2 ^ Z.max (- e) 0 in
  2 * Z.abs (n * den - num) <= den
  /\ (2 * Z.abs (n * den - num) = den -> Z.even n = true).

(** [s] is the float [x] written to [d] decimals, as ["%.df"] writes it: the
    sign, then the absolute value rounded to the nearest multiple of
    [10^-d], ties to even, with exactly [d] decimals. *)
Definition written_to (d : nat) (x : float) (s : string) : Prop :=
  match Prim2SF x with
  | S754_nan => s = "nan"
  | S754_infinity sg => s = if sg then "-inf" else "inf"
  | S754_zero sg =>
      exists t, s = (if sg then "-" else "") ++ t /\ writes_fixed d 0 t
  | S754_finite sg m e =>
      exists n t,
        nearest_even m e d n
        /\ s = (if sg then "-" else "") ++ t
        /\ writes_fixed d n t
  end.

(** *** The entropy of the characters *)

(** The distinct elements of a list, in order of first occurrence. *)
Fixpoint distinct (l : list string) : list string :=
  match l with
  | [] => []
  | x :: l' => x :: filter (fun y => negb (String.eqb y x)) (distinct l')
  end.

(** The number of occurrences of [x] in [l]. *)
Fixpoint occurrences (x : string) (l : list string) : Z :=
  match l with
  | [] => 0
  | y :: l' => (if String.eqb x y then 1 else 0) + occurrences x l'
  end.

(** The frequency table after the characters [l], from the table [freq]:
    the keys of [freq] with the occurrences in [l] added to their counts, then
    the new characters of [l] in order of first occurrence. *)
Definition extend_table (freq : list (string * Z)) (l : list string) : list (string * Z) :=
  (map (fun kv => (fst kv, snd kv + occurrences (fst kv) l)) freq
   ++ map (fun c => (c, occurrences c l))
        (filter (fun c => negb (str_list_mem c (map fst freq))) (distinct l)))%list.

(** One turn of the loop that builds the frequency table. *)
Definition count_step (freq : list (string * Z)) (ch : string) : list (string * Z) :=
  dict_set freq ch (dict_get_default freq ch 0 + 1).

(** One more occurrence for the key [x]. *)
Definition bump (x : string) (kv : string * Z) : string * Z :=
  if String.eqb x (fst kv) then (fst kv, snd kv + 1) else kv.

(** The sum of a list of integers. *)
Definition sum_Z (l : list Z) : Z := fold_right Z.add 0 l.

Section EntropyFormula.

Variable libm_log2 : float -> float.

(** One term [-p * log2(p)] of the sum, for [p = count(c) / length], added
    to the sum so far. *)
Definition entropy_term (password : string) (acc : result float) (c : string)
  : result float :=
  s <- acc ;;
  p <- int_truediv (occurrences c (chars password)) (Z.of_nat (String.length password)) ;;
  l <- math_log2 libm_log2 p ;;
  Ok (s + - (p * l))%float.

(** [length * sum over the distinct characters c of -p * log2(p)], and 0 for
    the empty string. *)
Definition shannon_formula (password : string) : result float :=
  if String.eqb password "" then Ok 0%float
  else
    s <- fold_left (entropy_term password) (distinct (chars password)) (Ok 0%float) ;;
    n <- float_of_int (Z.of_nat (String.length password)) ;;
    Ok (n * s)%float.

End EntropyFormula.


(** ** A reference C library

    An instance of the two C library functions that the development is
    parametric in: [log2] by repeated squaring and [pow] through the
    exponential series.  Both are exact at the powers of two. *)
Module RefLibm.

(** The binary digits of [log2 y] after the point, for [1 <= y < 2]. *)
Fixpoint log2_frac (n : nat) (y b acc : float) : float :=
  match n with
  | O => acc
  | S n' =>
      let y2 := (y * y)%float in
      if (2 <=? y2)%float then log2_frac n' (y2 / 2)%float (b / 2)%float (acc + b)%float
      else log2_frac n' y2 (b / 2)%float acc
  end.

Definition log2 (x : float) : float :=
  let (m, e) := Z.frexp x in
  (float_of_Z (e - 1) + log2_frac 60 (2 * m)%float 0.5%float 0%float)%float.

Definition floor_SF (x : spec_float) : Z :=
  match x with
  | S754_finite s m e =>
      if (0 <=? e)%Z then (if s then - (Zpos m * 2 ^ e) else Zpos m * 2 ^ e)
      else if s then - ((Zpos m + 2 ^ (- e) - 1) / 2 ^ (- e))
      else Zpos m / 2 ^ (- e)
  | _ => 0
  end.

(** [sum of t^k / k!] for [k < n], by Horner's rule. *)
Fixpoint exp_series (n : nat) (k : float) (t : float) : float :=
  match n with
  | O => 1%float
  | S n' => (1 + t / k * exp_series n' (k + 1)%float t)%float
  end.

Definition ln2 : float := 0x1.62e42fefa39efp-1%float.

Definition exp2 (t : float) : float :=
  let n := floor_SF (Prim2SF t) in
  let f := (t - float_of_Z n)%float in
  Z.ldexp (exp_series 30 1%float (f * ln2)%float) n.

Definition pow (b x : float) : float := exp2 (x * log2 b)%float.

End RefLibm.

(** An estimator for examples: it knows one password and fails on the
    others. *)
Definition sample_zxcvbn (pw : string) : result (list (string * num)) :=
  if String.eqb pw "password"
  then Ok [("guesses", NInt 3); ("score", NInt 0)]
  else Raise (EstimatorError "estimator failed").
(** An estimator for examples that answers every password with an entropy of
    2000 bits, a guess count and a score. *)
Definition eager_zxcvbn (pw : string) : result (list (string * num)) :=
  Ok [("entropy", NFloat 2000); ("guesses", NInt 5); ("score", NInt 1)].

(** A password of 320 hexadecimal digits, each of the sixteen digits twenty
    times: ["0123456789abcdef" * 20]. *)
Definition hex_password : string := str_repeat "0123456789abcdef" 20.

(** Files for examples: one report is there already, one path is refused. *)
Definition sample_fs : filesystem :=
  {| fs_files := [("old.csv", [[VStr "stale"]])];
     fs_denied := fun path => String.eqb path "locked.csv" |}.

(** Results for examples: one with two notes, one with hardly a field. *)
Definition sample_results : list dict :=
  [ [ ("password_masked", VStr "a**d"); ("length", VInt 4);
      ("notes", VList [VStr "first"; VStr "second"]) ];
    [ ("password_masked", VStr "**") ] ].


(** Arguments for examples: two passwords at the default preset, and a
    batch with the 320 hexadecimal digits in its middle. *)
Definition sample_args : cli_args :=
  {| args_passwords := ["P@ssw0rd!"; "abcd"];
     args_preset := "mid_gpu";
     args_custom_speed := None;
     args_output_prefix := None |}.

Definition long_batch_args : cli_args :=
  {| args_passwords := ["abcd"; hex_password; "P@ssw0rd!"];
     args_preset := "mid_gpu";
     args_custom_speed := Some 2500%float;
     args_output_prefix := None |}.

(** [f] applied [n] times. *)
Fixpoint iterate {A : Type} (n : nat) (f : A -> A) (a : A) : A :=
  match n with
  | O => a
  | S n' => iterate n' f (f a)
  end.


(** * Verification *)

(** ** The error monad *)

Lemma bind_ok_inv {A B : Type} (c : result A) (k : A -> result B) (b : B) :
  bind c k = Ok b -> exists a, c = Ok a /\ k a = Ok b.
Proof.
  destruct c as [a|e]; simpl; intros H; [exists a; auto | discriminate].
Qed.

Lemma bind_raise_inv {A B : Type} (c : result A) (k : A -> result B) (e : exn) :
  bind c k = Raise e -> c = Raise e \/ exists a, c = Ok a /\ k a = Raise e.
Proof.
  destruct c as [a|e']; simpl; intros H; [right; exists a; auto | left; congruence].
Qed.

(** Takes a hypothesis [bind c k = Ok b] apart, as often as it can. *)
Ltac bind_inv H :=
  repeat match type of H with
    | bind _ _ = Ok _ =>
        let a := fresh "a" in
        let Ha := fresh "Ha" in
        apply bind_ok_inv in H; destruct H as (a & Ha & H)
    end.

(** ** Binary64 facts *)

Section FloatFacts.

Local Open Scope float_scope.


Lemma is_nan_SF (x : float) :
  is_nan x = match Prim2SF x with S754_nan => true | _ => false end.
Proof.
  unfold is_nan. rewrite eqb_spec.
  destruct (Prim2SF x) as [s|s| |s m e] eqn:E; try destruct s; try reflexivity;
    unfold SFeqb; simpl; rewrite Z.compare_refl, Pos.compare_cont_refl; reflexivity.
Qed.

Lemma leb_false_eqb_false (x y : float) : (x <=? y) = false -> (x =? y) = false.
Proof.
  rewrite leb_spec, eqb_spec. unfold SFleb, SFeqb.
  destruct (SFcompare (Prim2SF x) (Prim2SF y)) as [[ | | ]|]; congruence.
Qed.

Lemma ltb_zero_not_leb (x : float) : (0 <? x) = true -> (x <=? 0) = false.
Proof.
  rewrite leb_spec, ltb_spec. unfold SFleb, SFltb.
  change (Prim2SF 0) with (S754_zero false).
  destruct (Prim2SF x) as [s|s| |s m e]; simpl; try destruct s; congruence.
Qed.

(** Subtracting is adding the opposite, bit for bit. *)
Lemma sub_add_opp (x y : float) : x - y = x + - y.
Proof.
  apply Prim2SF_inj. rewrite sub_spec, add_spec, opp_spec.
  unfold SF64sub, SF64add.
  destruct (Prim2SF x) as [sx|sx| |sx mx ex], (Prim2SF y) as [sy|sy| |sy my ey];
    simpl; try reflexivity; destruct sx, sy; reflexivity.
Qed.

Lemma mul_comm (x y : float) : x * y = y * x.
Proof.
  apply Prim2SF_inj. rewrite !mul_spec. unfold SF64mul.
  destruct (Prim2SF x) as [sx|sx| |sx mx ex], (Prim2SF y) as [sy|sy| |sy my ey];
    simpl; try reflexivity; try (destruct sx, sy; reflexivity).
  rewrite (Pos.mul_comm mx my), (Z.add_comm ex ey), (xorb_comm sx sy). reflexivity.
Qed.






End FloatFacts.

(** ** Strings *)

Lemma str_repeat_length (n : nat) : String.length (str_repeat "*" n) = n.
Proof. induction n as [|n IH]; simpl; [reflexivity | now rewrite IH]. Qed.

Lemma str_repeat_get (n i : nat) :
  (i < n)%nat -> String.get i (str_repeat "*" n) = Some "*"%char.
Proof.
  revert i. induction n as [|n IH]; intros i Hi; [lia|].
  destruct i as [|i]; simpl; [reflexivity | apply IH; lia].
Qed.

Lemma append_length (s1 s2 : string) :
  String.length (s1 ++ s2) = (String.length s1 + String.length s2)%nat.
Proof. induction s1 as [|c s1 IH]; simpl; [reflexivity | now rewrite IH]. Qed.

Lemma substring_first (c : ascii) (s : string) : substring 0 1 (String c s) = String c "".
Proof. simpl. destruct s; reflexivity. Qed.

Lemma substring_last (s : string) (c : ascii) :
  substring (String.length s) 1 (s ++ String c "") = String c "".
Proof. induction s as [|a s IH]; simpl; [reflexivity | exact IH]. Qed.

(** A string of at least two characters is a first character, an interior and
    a last character. *)
Lemma string_ends (s : string) :
  (2 <= String.length s)%nat ->
  exists a mid b, s = String a (mid ++ String b "").
Proof.
  destruct s as [|a s]; simpl; [lia|]. intros H. exists a.
  assert (Hs : (1 <= String.length s)%nat) by lia. clear H.
  induction s as [|c s IH]; simpl in Hs; [lia|].
  destruct s as [|c' s'].
  - exists "", c. reflexivity.
  - destruct IH as (mid & b & E); [simpl; lia|].
    injection E as E. exists (String c mid), b. simpl. now rewrite E.
Qed.

(** The mask of a password with an interior. *)
Lemma mask_long (a b : ascii) (mid : string) :
  mid <> "" ->
  _mask_password (String a (mid ++ String b "")) =
  String a (str_repeat "*" (String.length mid) ++ String b "").
Proof.
  intros Hmid. unfold _mask_password.
  assert (Hlen : String.length (String a (mid ++ String b "")) = S (S (String.length mid))).
  { simpl. rewrite append_length. simpl. lia. }
  rewrite Hlen.
  destruct mid as [|c mid]; [congruence|].
  change (S (S (String.length (String c mid))) <=? 2)%nat with false.
  cbv iota.
  rewrite substring_first.
  replace (S (S (String.length (String c mid))) - 2)%nat
    with (String.length (String c mid)) by lia.
  replace (S (S (String.length (String c mid))) - 1)%nat
    with (String.length (String a (String c mid))) by (simpl; lia).
  change (String a (String c mid ++ String b "")) with (String a (String c mid) ++ String b "").
  rewrite substring_last. reflexivity.
Qed.

Lemma mask_short (pw : string) :
  (String.length pw <= 2)%nat -> _mask_password pw = str_repeat "*" (String.length pw).
Proof.
  intros H. unfold _mask_password. destruct pw as [|c pw]; [reflexivity|].
  apply Nat.leb_le in H. rewrite H. reflexivity.
Qed.

Lemma mask_length (pw : string) :
  String.length (_mask_password pw) = String.length pw.
Proof.
  destruct (Nat.le_gt_cases (String.length pw) 2) as [H|H].
  - rewrite mask_short by exact H. apply str_repeat_length.
  - destruct (string_ends pw) as (a & mid & b & ->); [lia|].
    assert (Hmid : mid <> "").
    { intros ->. simpl in H. lia. }
    rewrite mask_long by exact Hmid.
    simpl. rewrite !append_length, str_repeat_length. reflexivity.
Qed.

Lemma get_append_left (s1 s2 : string) (i : nat) :
  (i < String.length s1)%nat -> String.get i (s1 ++ s2) = String.get i s1.
Proof.
  revert i. induction s1 as [|c s1 IH]; simpl; intros i Hi; [lia|].
  destruct i as [|i]; [reflexivity | apply IH; lia].
Qed.

Lemma get_append_right (s1 s2 : string) (i : nat) :
  String.get (String.length s1 + i) (s1 ++ s2) = String.get i s2.
Proof. induction s1 as [|c s1 IH]; simpl; [reflexivity | exact IH]. Qed.

(** Character by character: the ends are kept, the interior is masked. *)
Lemma mask_long_get (pw : string) (i : nat) :
  (2 < String.length pw)%nat -> (i < String.length pw)%nat ->
  String.get i (_mask_password pw) =
  if (i =? 0)%nat || (i =? String.length pw - 1)%nat then String.get i pw
  else Some "*"%char.
Proof.
  intros Hlen Hi.
  destruct (string_ends pw) as (a & mid & b & ->); [lia|].
  assert (Hmid : mid <> "").
  { intros ->. simpl in Hlen. lia. }
  rewrite mask_long by exact Hmid.
  assert (L : String.length (String a (mid ++ String b "")) = S (S (String.length mid))).
  { simpl. rewrite append_length. simpl. lia. }
  rewrite L in *.
  destruct i as [|i]; [reflexivity|].
  change (S i =? 0)%nat with false. rewrite orb_false_l.
  replace (S (S (String.length mid)) - 1)%nat with (S (String.length mid)) by lia.
  simpl String.get.
  destruct (Nat.eqb_spec (S i) (S (String.length mid))) as [E|E].
  - injection E as ->.
    pose proof (get_append_right (str_repeat "*" (String.length mid)) (String b "") 0) as R.
    rewrite str_repeat_length, Nat.add_0_r in R. rewrite R.
    pose proof (get_append_right mid (String b "") 0) as R'.
    rewrite Nat.add_0_r in R'. now rewrite R'.
  - rewrite get_append_left by (rewrite str_repeat_length; lia).
    apply str_repeat_get. lia.
Qed.

(** ** Decimal rendering *)

Section DecimalRendering.

Local Open Scope Z_scope.

Lemma digit_value_range (c : ascii) (v : Z) : digit_value c = Some v -> 0 <= v <= 9.
Proof.
  unfold digit_value.
  destruct ((48 <=? Z.of_N (N_of_ascii c))%Z && (Z.of_N (N_of_ascii c) <=? 57)%Z) eqn:E;
    [|discriminate].
  intros [= <-]. apply andb_true_iff in E. lia.
Qed.

Lemma digit_value_zero (c : ascii) : digit_value c = Some 0 -> c = "0"%char.
Proof.
  unfold digit_value.
  destruct ((48 <=? Z.of_N (N_of_ascii c))%Z && (Z.of_N (N_of_ascii c) <=? 57)%Z);
    [|discriminate].
  intros [= H].
  assert (N_of_ascii c = 48%N) as E by lia.
  rewrite <- (ascii_N_embedding c), E. reflexivity.
Qed.

Lemma digits_value_uint_acc (d : Decimal.uint) :
  forall acc : positive,
    digits_value (NilEmpty.string_of_uint d) (Zpos acc)
    = Some (Zpos (Pos.of_uint_acc d acc)).
Proof.
  induction d; intros acc; cbn [NilEmpty.string_of_uint digits_value Pos.of_uint_acc];
    [reflexivity|..];
    match goal with
    | |- context [digit_value ?c] =>
        let v := eval vm_compute in (digit_value c) in
        change (digit_value c) with v; cbv iota
    end;
    rewrite <- IHd; f_equal; lia.
Qed.

Lemma digits_value_uint (d : Decimal.uint) :
  digits_value (NilEmpty.string_of_uint d) 0 = Some (Z.of_N (Pos.of_uint d)).
Proof.
  induction d; cbn [NilEmpty.string_of_uint digits_value Pos.of_uint];
    [reflexivity|..];
    match goal with
    | |- context [digit_value ?c] =>
        let v := eval vm_compute in (digit_value c) in
        change (digit_value c) with v; cbv iota
    end;
    [exact IHd|..]; cbn [Z.mul Z.add Z.of_N]; apply digits_value_uint_acc.
Qed.

Lemma dec_of_Z_pos (p : positive) :
  dec_of_Z (Zpos p) = NilEmpty.string_of_uint (Pos.to_uint p).
Proof.
  unfold dec_of_Z. cbn [Z.to_int NilZero.string_of_int].
  pose proof (DecimalPos.Unsigned.to_uint_nonnil p) as H.
  destruct (Pos.to_uint p); [congruence|reflexivity..].
Qed.

Lemma dec_of_Z_value (z : Z) : 0 <= z -> digits_value (dec_of_Z z) 0 = Some z.
Proof.
  intros Hz. destruct z as [|p|p]; [reflexivity| |lia].
  now rewrite dec_of_Z_pos, digits_value_uint, DecimalPos.Unsigned.of_to.
Qed.

Lemma to_uint_no_zero_in_front (p : positive) (d : Decimal.uint) :
  Pos.to_uint p <> Decimal.D0 d.
Proof.
  intros H.
  pose proof (DecimalPos.Unsigned.to_of (Pos.to_uint p)) as E.
  rewrite DecimalPos.Unsigned.of_to in E. cbn [N.to_uint] in E.
  rewrite H, DecimalFacts.unorm_D0 in E.
  destruct d; [exact (DecimalPos.Unsigned.to_uint_nonzero p H)|..];
    match type of E with
    | _ = Decimal.unorm ?u =>
        assert (u <> Decimal.Nil) as Hn by discriminate;
        pose proof (DecimalFacts.nb_digits_unorm u Hn) as Hle;
        rewrite <- E in Hle; cbn [Decimal.nb_digits] in Hle; lia
    end.
Qed.

Lemma dec_of_Z_writes (z : Z) : 0 <= z -> writes_integer z (dec_of_Z z).
Proof.
  intros Hz. split; [now apply dec_of_Z_value|].
  destruct z as [|p|p]; [split; [discriminate|]; intros s' [= <-]; reflexivity| |lia].
  rewrite dec_of_Z_pos.
  pose proof (DecimalPos.Unsigned.to_uint_nonnil p) as Hnil.
  pose proof (to_uint_no_zero_in_front p) as Hzero.
  destruct (Pos.to_uint p) as [|d|d|d|d|d|d|d|d|d|d];
    [congruence | now destruct (Hzero d) | ..];
    (split; [discriminate | intros s'; discriminate]).
Qed.

Lemma digits_value_lower (s : string) :
  forall acc v, 0 <= acc -> digits_value s acc = Some v ->
    acc * 10 ^ Z.of_nat (String.length s) <= v.
Proof.
  induction s as [|c s IH]; intros acc v Hacc H.
  - injection H as <-. cbn. lia.
  - cbn [digits_value] in H. destruct (digit_value c) as [dv|] eqn:Hc; [|discriminate].
    apply digit_value_range in Hc.
    apply IH in H; [|lia].
    cbn [String.length]. rewrite Nat2Z.inj_succ, Z.pow_succ_r by lia.
    pose proof (Z.pow_pos_nonneg 10 (Z.of_nat (String.length s))) as Hp. nia.
Qed.

(** The integer part is no longer than the number allows. *)
Lemma writes_integer_length (n : Z) (s : string) (k : nat) :
  writes_integer n s -> n < 10 ^ Z.of_nat k -> (1 <= k)%nat ->
  (String.length s <= k)%nat.
Proof.
  intros (Hv & Hne & Hz) Hn Hk.
  destruct s as [|c s]; [congruence|].
  cbn [digits_value] in Hv. destruct (digit_value c) as [dv|] eqn:Hc; [|discriminate].
  pose proof (digit_value_range c dv Hc) as Hr.
  destruct (Z.eq_dec dv 0) as [->|Hnz].
  - apply digit_value_zero in Hc. subst c. rewrite (Hz s eq_refl). cbn. lia.
  - apply digits_value_lower in Hv; [|lia].
    cbn [String.length].
    assert (10 ^ Z.of_nat (String.length s) < 10 ^ Z.of_nat k) as Hlt.
    { pose proof (Z.pow_pos_nonneg 10 (Z.of_nat (String.length s))) as Hp. nia. }
    apply Z.pow_lt_mono_r_iff in Hlt; lia.
Qed.

Lemma zeros_length (n : nat) : String.length (str_repeat "0" n) = n.
Proof. induction n as [|n IH]; simpl; [reflexivity | now rewrite IH]. Qed.

Lemma digits_value_zeros (k : nat) (s : string) :
  digits_value (str_repeat "0" k ++ s) 0 = digits_value s 0.
Proof. induction k as [|k IH]; [reflexivity | exact IH]. Qed.

Lemma fixed_digits_writes (n : Z) (d : nat) :
  0 <= n -> writes_fixed d n (fixed_digits n d).
Proof.
  intros Hn. unfold fixed_digits.
  destruct d as [|d'].
  - exists (dec_of_Z n), "", n, 0.
    split; [generalize (dec_of_Z n) as s; induction s; simpl; congruence|].
    split; [reflexivity|]. split; [now apply dec_of_Z_writes|].
    split; [reflexivity|]. cbn. lia.
  - set (d := S d'). set (p10 := 10 ^ Z.of_nat d).
    assert (0 < p10) as Hp by (apply Z.pow_pos_nonneg; lia).
    pose proof (Z.mod_pos_bound n p10 Hp) as Hm.
    pose proof (Z.div_pos n p10 Hn Hp) as Hq.
    pose proof (dec_of_Z_writes (n mod p10) (proj1 Hm)) as Hfrac.
    pose proof (writes_integer_length _ _ d Hfrac (proj2 Hm)) as Hlen.
    exists (dec_of_Z (n / p10)),
           (str_repeat "0" (d - String.length (dec_of_Z (n mod p10))) ++ dec_of_Z (n mod p10)),
           (n / p10), (n mod p10).
    split; [reflexivity|].
    split; [rewrite append_length, zeros_length; subst d; lia|].
    split; [now apply dec_of_Z_writes|].
    split; [rewrite digits_value_zeros; apply Hfrac|].
    rewrite (Z.div_mod n p10) at 1 by lia. lia.
Qed.

Lemma scaled_round_nearest (m : positive) (e : Z) (d : nat) :
  nearest_even m e d (scaled_round m e d) /\ 0 <= scaled_round m e d.
Proof.
  unfold nearest_even, scaled_round.
  assert (0 < 10 ^ Z.of_nat d) as Hp by (apply Z.pow_pos_nonneg; lia).
  destruct (0 <=? e) eqn:He.
  - apply Z.leb_le in He.
    rewrite (Z.max_l e 0), (Z.max_r (- e) 0) by lia.
    assert (0 < 2 ^ e) as H2 by (apply Z.pow_pos_nonneg; lia).
    change (2 ^ 0) with 1.
    replace (Z.pos m * 2 ^ e * 10 ^ Z.of_nat d * 1 - Z.pos m * 10 ^ Z.of_nat d * 2 ^ e)
      with 0 by ring.
    change (Z.abs 0) with 0.
    split; [split; [lia | lia] | nia].
  - apply Z.leb_gt in He.
    rewrite (Z.max_r e 0), (Z.max_l (- e) 0) by lia.
    set (den := 2 ^ (- e)).
    assert (0 < den) as Hden by (apply Z.pow_pos_nonneg; lia).
    change (2 ^ 0) with 1. rewrite Z.mul_1_r.
    set (num := Z.pos m * 10 ^ Z.of_nat d).
    assert (0 <= num) as Hnum by (subst num; nia).
    pose proof (Z.div_eucl_eq num den ltac:(lia)) as Heq.
    pose proof (Z.mod_pos_bound num den Hden) as Hr.
    pose proof (Z.div_pos num den Hnum Hden) as Hq.
    unfold Z.modulo, Z.div in Hr, Hq.
    destruct (Z.div_eucl num den) as [q r].
    cbn [fst snd] in *.
    destruct (Z.compare_spec (2 * r) den) as [E|L|G].
    + destruct (Z.even q) eqn:Hev.
      * split; [|lia]. split; [|intros _; exact Hev].
        replace (q * den - num) with (- r) by lia. lia.
      * split; [|lia]. split.
        -- replace ((q + 1) * den - num) with (den - r) by lia. lia.
        -- intros _. rewrite Z.even_add, Hev. reflexivity.
    + split; [|lia]. replace (q * den - num) with (- r) by lia.
      split; lia.
    + split; [|lia]. replace ((q + 1) * den - num) with (den - r) by lia.
      split; lia.
Qed.

(** [format_f d x] is the float [x] written to [d] decimals. *)
Lemma format_f_written (d : nat) (x : float) : written_to d x (format_f d x).
Proof.
  unfold written_to, format_f.
  destruct (Prim2SF x) as [sg|sg| |sg m e]; try reflexivity.
  - eexists. split; [reflexivity|]. now apply fixed_digits_writes.
  - destruct (scaled_round_nearest m e d) as [Hn H0].
    exists (scaled_round m e d). eexists. split; [exact Hn|].
    split; [reflexivity|]. now apply fixed_digits_writes.
Qed.

(** *** The rendering is pinned *)

Lemma digit_value_inj (c1 c2 : ascii) (v : Z) :
  digit_value c1 = Some v -> digit_value c2 = Some v -> c1 = c2.
Proof.
  unfold digit_value.
  destruct ((48 <=? Z.of_N (N_of_ascii c1))%Z && (Z.of_N (N_of_ascii c1) <=? 57)%Z);
    [|discriminate].
  destruct ((48 <=? Z.of_N (N_of_ascii c2))%Z && (Z.of_N (N_of_ascii c2) <=? 57)%Z);
    [|discriminate].
  intros [= H1] [= H2].
  assert (N_of_ascii c1 = N_of_ascii c2) as E by lia.
  rewrite <- (ascii_N_embedding c1), <- (ascii_N_embedding c2), E. reflexivity.
Qed.

Lemma digits_value_bounds (s : string) :
  forall acc v, digits_value s acc = Some v ->
    acc * 10 ^ Z.of_nat (String.length s) <= v
    < (acc + 1) * 10 ^ Z.of_nat (String.length s).
Proof.
  induction s as [|c s IH]; intros acc v H.
  - injection H as <-. cbn. lia.
  - cbn [digits_value] in H. destruct (digit_value c) as [dv|] eqn:Hc; [|discriminate].
    apply digit_value_range in Hc.
    apply IH in H.
    cbn [String.length]. rewrite Nat2Z.inj_succ, Z.pow_succ_r by lia.
    pose proof (Z.pow_pos_nonneg 10 (Z.of_nat (String.length s))) as Hp. nia.
Qed.

Lemma digits_value_inj (s1 : string) :
  forall s2 acc v,
    String.length s1 = String.length s2 ->
    digits_value s1 acc = Some v -> digits_value s2 acc = Some v -> s1 = s2.
Proof.
  induction s1 as [|c1 s1 IH]; intros [|c2 s2] acc v Hlen H1 H2;
    try discriminate; [reflexivity|].
  cbn [digits_value] in H1, H2.
  destruct (digit_value c1) as [v1|] eqn:Hc1; [|discriminate].
  destruct (digit_value c2) as [v2|] eqn:Hc2; [|discriminate].
  injection Hlen as Hlen.
  pose proof (digits_value_bounds _ _ _ H1) as B1.
  pose proof (digits_value_bounds _ _ _ H2) as B2.
  rewrite Hlen in B1.
  pose proof (Z.pow_pos_nonneg 10 (Z.of_nat (String.length s2))) as Hp.
  assert (v1 = v2) as -> by nia.
  rewrite (digit_value_inj c1 c2 v2 Hc1 Hc2).
  f_equal. exact (IH s2 _ v Hlen H1 H2).
Qed.

(** An integer has one writing. *)
Lemma writes_integer_unique (n : Z) (s1 s2 : string) :
  writes_integer n s1 -> writes_integer n s2 -> s1 = s2.
Proof.
  assert (forall s, writes_integer n s ->
            (n = 0 /\ s = "0")
            \/ (10 ^ (Z.of_nat (String.length s) - 1) <= n
                < 10 ^ Z.of_nat (String.length s) /\ 0 < n)) as Hshape.
  { intros s (Hv & Hne & Hz).
    destruct s as [|c s]; [congruence|].
    pose proof (digits_value_bounds _ _ _ Hv) as Hup.
    cbn [digits_value] in Hv. destruct (digit_value c) as [dv|] eqn:Hc; [|discriminate].
    pose proof (digit_value_range c dv Hc) as Hr.
    destruct (Z.eq_dec dv 0) as [->|Hnz].
    - apply digit_value_zero in Hc. subst c. rewrite (Hz s eq_refl) in *.
      left. split; [|reflexivity]. cbn in Hv. congruence.
    - right. apply digits_value_bounds in Hv.
      cbn [String.length] in *. rewrite Nat2Z.inj_succ in *.
      replace (Z.succ (Z.of_nat (String.length s)) - 1)
        with (Z.of_nat (String.length s)) by lia.
      pose proof (Z.pow_pos_nonneg 10 (Z.of_nat (String.length s))) as Hp.
      split; [split; [nia | lia] | nia]. }
  intros H1 H2.
  destruct (Hshape s1 H1) as [(E1 & ->)|(B1 & P1)];
    destruct (Hshape s2 H2) as [(E2 & ->)|(B2 & P2)]; try reflexivity; try lia.
  apply (digits_value_inj s1 s2 0 n); [|apply H1|apply H2].
  assert (Z.of_nat (String.length s1) = Z.of_nat (String.length s2)) as E; [|lia].
  destruct (Z.lt_trichotomy (Z.of_nat (String.length s1)) (Z.of_nat (String.length s2)))
    as [L|[E|G]]; [|exact E|].
  - assert (10 ^ Z.of_nat (String.length s1) <= 10 ^ (Z.of_nat (String.length s2) - 1))
      by (apply Z.pow_le_mono_r; lia). lia.
  - assert (10 ^ Z.of_nat (String.length s2) <= 10 ^ (Z.of_nat (String.length s1) - 1))
      by (apply Z.pow_le_mono_r; lia). lia.
Qed.

Lemma append_inj_l (s1 s2 t : string) : s1 = s2 -> s1 ++ t = s2 ++ t.
Proof. now intros ->. Qed.

Lemma writes_fixed_unique (d : nat) (n : Z) (s1 s2 : string) :
  writes_fixed d n s1 -> writes_fixed d n s2 -> s1 = s2.
Proof.
  intros (ip1 & fp1 & a1 & b1 & -> & L1 & I1 & F1 & E1)
         (ip2 & fp2 & a2 & b2 & -> & L2 & I2 & F2 & E2).
  pose proof (digits_value_bounds _ _ _ F1) as B1.
  pose proof (digits_value_bounds _ _ _ F2) as B2.
  rewrite L1 in B1. rewrite L2 in B2.
  pose proof (Z.pow_pos_nonneg 10 (Z.of_nat d)) as Hp.
  assert (a1 = a2) as -> by nia.
  assert (b1 = b2) as -> by lia.
  rewrite (writes_integer_unique a2 ip1 ip2 I1 I2).
  rewrite (digits_value_inj fp1 fp2 0 b2); [reflexivity|congruence|exact F1|exact F2].
Qed.

Lemma nearest_even_unique (m : positive) (e : Z) (d : nat) (n1 n2 : Z) :
  nearest_even m e d n1 -> nearest_even m e d n2 -> n1 = n2.
Proof.
  unfold nearest_even.
  set (num := Z.pos m * 10 ^ Z.of_nat d * 2 ^ Z.max e 0).
  set (den := 2 ^ Z.max (- e) 0).
  assert (0 < den) as Hden by (apply Z.pow_pos_nonneg; lia).
  intros [H1 T1] [H2 T2].
  assert (n1 = n2 \/ (n1 = n2 + 1 /\ 2 * Z.abs (n1 * den - num) = den
                      /\ 2 * Z.abs (n2 * den - num) = den)
          \/ (n2 = n1 + 1 /\ 2 * Z.abs (n1 * den - num) = den
              /\ 2 * Z.abs (n2 * den - num) = den)) as [E|[(E & A & B)|(E & A & B)]]
    by nia; [exact E| |].
  - specialize (T1 A). specialize (T2 B). subst n1.
    rewrite Z.even_add, T2 in T1. discriminate.
  - specialize (T1 A). specialize (T2 B). subst n2.
    rewrite Z.even_add, T1 in T2. discriminate.
Qed.

(** A float has one rendering to [d] decimals. *)
Lemma written_to_unique (d : nat) (x : float) (s1 s2 : string) :
  written_to d x s1 -> written_to d x s2 -> s1 = s2.
Proof.
  unfold written_to.
  destruct (Prim2SF x) as [sg|sg| |sg m e].
  - intros (t1 & -> & W1) (t2 & -> & W2).
    now rewrite (writes_fixed_unique d 0 t1 t2 W1 W2).
  - congruence.
  - congruence.
  - intros (n1 & t1 & N1 & -> & W1) (n2 & t2 & N2 & -> & W2).
    rewrite (nearest_even_unique m e d n1 n2 N1 N2) in W1.
    now rewrite (writes_fixed_unique d n2 t1 t2 W1 W2).
Qed.

End DecimalRendering.

(** ** The crack-time converter *)

Section ConverterFacts.

Local Open Scope float_scope.

(** C2. [estimate_crack_time_from_guesses] raises [ValueError] exactly when the
    rate is [<= 0], and then before dividing: it never raises
    [ZeroDivisionError].  For any other rate (in particular a rate [> 0]) it
    returns the quotient [guesses / guesses_per_second] as [seconds] and the
    rate itself as [guesses_per_second]. *)
Theorem estimate_crack_time_contract (guesses guesses_per_second : float) :
  ((exists msg, estimate_crack_time_from_guesses guesses guesses_per_second
                = Raise (ValueError msg))
   <-> (guesses_per_second <=? 0) = true)
  /\ (is_ok (estimate_crack_time_from_guesses guesses guesses_per_second) = false
      <-> (guesses_per_second <=? 0) = true)
  /\ (forall msg, estimate_crack_time_from_guesses guesses guesses_per_second
                  <> Raise (ZeroDivisionError msg))
  /\ ((0 <? guesses_per_second) = true ->
      exists human,
        estimate_crack_time_from_guesses guesses guesses_per_second
        = Ok [ ("seconds", VFloat (guesses / guesses_per_second));
               ("human_readable", VStr human);
               ("guesses_per_second", VFloat guesses_per_second) ]).
Proof.
  unfold estimate_crack_time_from_guesses, float_truediv.
  destruct (guesses_per_second <=? 0) eqn:Hle.
  - repeat split; try reflexivity.
    + exists "guesses_per_second must be > 0". reflexivity.
    + discriminate.
    + intros H. apply ltb_zero_not_leb in H. congruence.
  - rewrite (leb_false_eqb_false _ _ Hle). simpl.
    repeat split; try discriminate.
    + intros (msg & H). discriminate.
    + intros _. eexists. reflexivity.
Qed.

(** The rates rejected by the test of C2 include zero and [-5], for any
    number of guesses. *)
Lemma estimate_crack_time_rejects (guesses : float) :
  estimate_crack_time_from_guesses guesses 0
  = Raise (ValueError "guesses_per_second must be > 0")
  /\ estimate_crack_time_from_guesses guesses (-5)
     = Raise (ValueError "guesses_per_second must be > 0").
Proof. split; reflexivity. Qed.

(** C6. The duration string is chosen by the ascending boundaries 1, 60,
    3600, 86400 and 31557600 seconds, and it is a number followed by a unit:
    below one second the seconds written to three decimals, then to two
    decimals the seconds, [seconds/60] in minutes, [seconds/3600] in hours,
    [seconds/86400] in days and [seconds/31557600] in years.  Written to [d]
    decimals means: the sign, and the absolute value rounded to the nearest
    multiple of [10^-d], ties to even, with an integer part without zeros
    in front, a point and exactly [d] digits; there is one such string.
    One million guesses at a thousand per second read "16.67 minutes". *)
Theorem human_readable_ladder :
  (forall seconds : float,
      let '(decimals, value, unit) :=
        if seconds <? 1 then (3%nat, seconds, " seconds")
        else if seconds <? 60 then (2%nat, seconds, " seconds")
        else if seconds <? 3600 then (2%nat, seconds / 60, " minutes")
        else if seconds <? 86400 then (2%nat, seconds / 3600, " hours")
        else if seconds <? 31557600 then (2%nat, seconds / 86400, " days")
        else (2%nat, seconds / 31557600, " years") in
      exists digits,
        written_to decimals value digits
        /\ (forall s, written_to decimals value s -> s = digits)
        /\ _human_readable_seconds seconds = digits ++ unit)
  /\ estimate_crack_time_from_guesses 1000000 1000
     = Ok [ ("seconds", VFloat 1000);
            ("human_readable", VStr "16.67 minutes");
            ("guesses_per_second", VFloat 1000) ].
Proof.
  split; [|vm_compute; reflexivity].
  intros seconds. unfold _human_readable_seconds.
  change (60 * 60.0) with 3600. change (24 * 3600) with 86400.
  change (365.25 * 86400) with 31557600.
  repeat match goal with
    | |- context [if ?c then _ else _] => destruct c
    end;
    (eexists; split; [apply format_f_written|];
     split; [|reflexivity];
     intros s Hs; exact (written_to_unique _ _ _ _ Hs (format_f_written _ _))).
Qed.

End ConverterFacts.

(** ** The analysis *)



Lemma heuristic_score_range (entropy_bits : float) (length : Z) :
  0 <= _heuristic_score entropy_bits length <= 4.
Proof.
  unfold _heuristic_score.
  repeat match goal with |- context [if ?b then _ else _] => destruct b end; lia.
Qed.

Section AnalysisFacts.

Variable libm_log2 : float -> float.
Variable libm_pow : float -> float -> float.
Variable _HAS_ZXCVBN : bool.
Variable zxcvbn : string -> result (list (string * num)).

Local Abbreviation analyze := (analyze_password libm_log2 libm_pow _HAS_ZXCVBN zxcvbn).
Local Abbreviation shannon := (_shannon_entropy_bits libm_log2).
Local Abbreviation estimated_by := (estimated libm_log2 libm_pow _HAS_ZXCVBN zxcvbn).
Local Abbreviation zxcvbn_est := (zxcvbn_estimate libm_log2 libm_pow zxcvbn).
Local Abbreviation fallback_est := (fallback_estimate libm_log2 libm_pow).

Lemma fallback_estimate_ok_inv (pw : string) (notes : list pyval) (est : estimate) :
  fallback_est pw (Z.of_nat (String.length pw)) notes = Ok est ->
  exists e p,
    shannon pw = Ok e /\ pow2 libm_pow e = Ok p
    /\ est = {| est_entropy_bits := e;
                est_guesses := Some (py_max 1 p);
                est_score := Some (_heuristic_score e (Z.of_nat (String.length pw)));
                est_notes := notes |}.
Proof.
  unfold fallback_estimate. intros H. bind_inv H.
  injection H as <-. eauto.
Qed.

(** What [analyze_password] returns comes from one of the three endings of
    the estimation. *)
Lemma analyze_ok_inv (pw : string) (r : dict) :
  analyze pw = Ok r ->
  exists est gv,
    estimated_by pw est
    /\ guesses_cell (est_guesses est) = Ok gv
    /\ r = analysis_record pw est gv.
Proof.
  unfold analyze_password. intros H.
  apply bind_ok_inv in H. destruct H as (est & Hest & H).
  apply bind_ok_inv in H. destruct H as (gv & Hgv & H).
  injection H as <-.
  exists est, gv. split; [|split].
  - destruct _HAS_ZXCVBN eqn:Hhas.
    + unfold try_except in Hest.
      destruct (zxcvbn_est pw []) as [est'|ex] eqn:Hz.
      * injection Hest as <-. now apply est_answered.
      * apply fallback_estimate_ok_inv in Hest.
        destruct Hest as (e & p & He & Hp & ->).
        now apply est_recovered.
    + apply bind_ok_inv in Hest. destruct Hest as (est' & Hf & Hest).
      injection Hest as <-.
      apply fallback_estimate_ok_inv in Hf.
      destruct Hf as (e & p & He & Hp & ->). simpl.
      now apply est_unavailable.
  - exact Hgv.
  - unfold analysis_record, class_cardinalities.
    destruct (str_any islower pw), (str_any isupper pw), (str_any isdigit pw),
      (str_any in_symbols pw); reflexivity.
Qed.

(** Conversely, an ending of the estimation whose guesses convert gives the
    result. *)
Lemma analyze_ok_intro (pw : string) (est : estimate) (gv : pyval) :
  estimated_by pw est ->
  guesses_cell (est_guesses est) = Ok gv ->
  analyze pw = Ok (analysis_record pw est gv).
Proof.
  intros Hest Hgv. unfold analyze_password.
  destruct Hest as [e p Hhas He Hp | est Hhas Hz | ex e p Hhas Hz He Hp];
    rewrite Hhas.
  - unfold fallback_estimate. rewrite He. simpl. rewrite Hp. simpl.
    unfold guesses_cell in Hgv. simpl in Hgv. rewrite Hgv. simpl.
    unfold analysis_record, class_cardinalities. simpl.
    destruct (str_any islower pw), (str_any isupper pw), (str_any isdigit pw),
      (str_any in_symbols pw); reflexivity.
  - rewrite Hz. simpl.
    unfold guesses_cell in Hgv. rewrite Hgv. simpl.
    unfold analysis_record, class_cardinalities.
    destruct (str_any islower pw), (str_any isupper pw), (str_any isdigit pw),
      (str_any in_symbols pw); reflexivity.
  - rewrite Hz. simpl. unfold fallback_estimate. rewrite He. simpl. rewrite Hp. simpl.
    unfold guesses_cell in Hgv. simpl in Hgv. rewrite Hgv. simpl.
    unfold analysis_record, class_cardinalities. simpl.
    destruct (str_any islower pw), (str_any isupper pw), (str_any isdigit pw),
      (str_any in_symbols pw); reflexivity.
Qed.

(** A failure of [2 ** entropy] on the Shannon path is a failure of the
    analysis. *)
Lemma analyze_fallback_raises (pw : string) (e : float) (ex : exn) :
  from_fallback libm_log2 libm_pow _HAS_ZXCVBN zxcvbn pw ->
  shannon pw = Ok e ->
  pow2 libm_pow e = Raise ex ->
  analyze pw = Raise ex.
Proof.
  intros Hf He Hp. unfold analyze_password.
  assert (Hfb : forall notes,
             fallback_est pw (Z.of_nat (String.length pw)) notes = Raise ex).
  { intros notes. unfold fallback_estimate. rewrite He. simpl. rewrite Hp. reflexivity. }
  destruct _HAS_ZXCVBN.
  - destruct Hf as [Hf|(ex' & Hz)]; [discriminate|].
    rewrite Hz. simpl. rewrite Hfb. reflexivity.
  - rewrite Hfb. reflexivity.
Qed.

Local Abbreviation fallback := (from_fallback libm_log2 libm_pow _HAS_ZXCVBN zxcvbn).

Lemma zxcvbn_estimate_ok_inv (pw : string) (est : estimate) :
  zxcvbn_est pw [] = Ok est ->
  exists zres d e p g s,
    zxcvbn pw = Ok zres /\ shannon pw = Ok d
    /\ py_float (dict_get_default zres "entropy" (NFloat d)) = Ok e
    /\ pow2 libm_pow e = Ok p
    /\ py_float (dict_get_default zres "guesses" (NFloat (py_max 1 p))) = Ok g
    /\ py_int (dict_get_default zres "score" (NInt 0)) = Ok s
    /\ est = {| est_entropy_bits := e; est_guesses := Some g;
                est_score := Some s; est_notes := [] |}.
Proof.
  unfold zxcvbn_estimate. intros H. bind_inv H. injection H as <-.
  do 6 eexists. repeat split; eassumption.
Qed.


(** C5. The fallback score is the ladder over the entropy: 0 for a length
    of 0, else 0 below 28 bits, 1 below 36, 2 below 60, 3 below 80 and 4
    otherwise; it is a function of its two arguments with values from 0 to 4.
    The score of a result of the Shannon path is this score, and with an
    estimator whose own scores are from 0 to 4, as the code expects of it,
    the score of every result that is returned lies from 0 to 4. *)
Theorem heuristic_score_ladder :
  (forall entropy_bits length,
      _heuristic_score entropy_bits length =
      if (length =? 0)%Z then 0
      else if (entropy_bits <? 28)%float then 0
      else if (entropy_bits <? 36)%float then 1
      else if (entropy_bits <? 60)%float then 2
      else if (entropy_bits <? 80)%float then 3
      else 4)
  /\ (forall entropy_bits length, 0 <= _heuristic_score entropy_bits length <= 4)
  /\ (forall pw r,
         analyze pw = Ok r -> fallback pw ->
         exists e,
           shannon pw = Ok e
           /\ dict_get r "score"
              = Some (VInt (_heuristic_score e (Z.of_nat (String.length pw)))))
  /\ (estimator_score_ok zxcvbn ->
      forall pw r,
        analyze pw = Ok r ->
        exists s, dict_get r "score" = Some (VInt s) /\ 0 <= s <= 4).
Proof.
  split; [reflexivity|]. split; [apply heuristic_score_range|]. split.
  - intros pw r Hr Hfb.
    apply analyze_ok_inv in Hr. destruct Hr as (est & gv & Hest & Hgv & ->).
    destruct Hest as [e p Hhas He Hp | est Hhas Hz | ex e p Hhas Hz He Hp].
    + exists e. auto.
    + destruct Hfb as [Hfb|(ex & Hfb)]; congruence.
    + exists e. auto.
  - intros Hcontract pw r Hr.
    apply analyze_ok_inv in Hr. destruct Hr as (est & gv & Hest & Hgv & ->).
    destruct Hest as [e p Hhas He Hp | est Hhas Hz | ex e p Hhas Hz He Hp].
    + eexists. split; [reflexivity | apply heuristic_score_range].
    + apply zxcvbn_estimate_ok_inv in Hz.
      destruct Hz as (zres & d & e & p & g & s & Hzx & Hd & He & Hp & Hg & Hs & ->).
      exists s. split; [reflexivity|].
      unfold dict_get_default in Hs.
      destruct (dict_get zres "score") as [v|] eqn:Hget.
      * eapply Hcontract; eassumption.
      * simpl in Hs. injection Hs as <-. lia.
    + eexists. split; [reflexivity | apply heuristic_score_range].
Qed.

(** *** The Shannon entropy at inputs where it is exact *)

Lemma math_log2_at (x y : float) :
  (0 <? x)%float = true -> is_nan x = false -> is_infinity x = false ->
  libm_log2 x = y -> is_nan y = false -> is_infinity y = false ->
  math_log2 libm_log2 x = Ok y.
Proof.
  intros Hpos Hnan Hinf Hy Hynan Hyinf. unfold math_log2.
  rewrite Hnan, Hinf, Hpos, Hy, Hynan, Hyinf. reflexivity.
Qed.

Lemma shannon_nonempty (pw : string) :
  pw <> "" ->
  shannon pw =
  (entropy_per_char <-
     fold_left (entropy_step libm_log2 (Z.of_nat (String.length pw)))
       (map snd (count_chars pw)) (Ok 0%float) ;;
   n <- float_of_int (Z.of_nat (String.length pw)) ;;
   Ok (entropy_per_char * n)%float).
Proof. destruct pw; [congruence | reflexivity]. Qed.

(** The loop over [k] equal counts. *)
Lemma entropy_fold_repeat (n c : Z) (k : nat) (p l acc : float) :
  int_truediv c n = Ok p ->
  math_log2 libm_log2 p = Ok l ->
  fold_left (entropy_step libm_log2 n) (repeat c k) (Ok acc)
  = Ok (iterate k (fun a => a - p * l)%float acc).
Proof.
  intros Hp Hl. revert acc.
  assert (Hstep : forall acc, entropy_step libm_log2 n (Ok acc) c = Ok (acc - p * l)%float).
  { intros acc. unfold entropy_step. simpl. rewrite Hp. simpl. rewrite Hl. reflexivity. }
  induction k as [|k IH]; intros acc; cbn [repeat fold_left iterate]; [reflexivity|].
  rewrite Hstep. apply IH.
Qed.

(** The Shannon entropy of a string in which each of [k] characters occurs
    [c] times, where [log2] of the frequency is known. *)
Lemma shannon_uniform (pw : string) (c : Z) (k : nat) (p l n : float) :
  pw <> "" ->
  map snd (count_chars pw) = repeat c k ->
  int_truediv c (Z.of_nat (String.length pw)) = Ok p ->
  math_log2 libm_log2 p = Ok l ->
  float_of_int (Z.of_nat (String.length pw)) = Ok n ->
  shannon pw = Ok (iterate k (fun a => a - p * l)%float 0%float * n)%float.
Proof.
  intros Hne Hfreq Hp Hl Hn.
  rewrite shannon_nonempty by exact Hne.
  rewrite Hfreq, (entropy_fold_repeat _ _ _ p l) by assumption.
  simpl. rewrite Hn. reflexivity.
Qed.

Lemma shannon_hex_password :
  libm_log2 0.0625%float = (-4)%float ->
  shannon hex_password = Ok 1280%float.
Proof.
  intros Hlog.
  rewrite (shannon_uniform hex_password 20 16 0.0625%float (-4)%float 320%float).
  - vm_compute. reflexivity.
  - vm_compute. discriminate.
  - vm_compute. reflexivity.
  - vm_compute. reflexivity.
  - apply math_log2_at; try reflexivity. exact Hlog.
  - vm_compute. reflexivity.
Qed.

(** C1 fails on the code.  At the 320 hexadecimal digits of [hex_password]
    the Shannon entropy is 1280 bits, [2 ** 1280.0] overflows, and
    [analyze_password] raises [OverflowError] instead of returning a result:
    both without the estimator and after a failure of the estimator. *)
Theorem analyze_password_overflows :
  libm_log2 0.0625%float = (-4)%float ->
  libm_pow 2%float 1280%float = infinity ->
  fallback hex_password ->
  analyze hex_password = Raise (OverflowError "(34, 'Numerical result out of range')").
Proof.
  intros Hlog Hpow Hfb.
  apply analyze_fallback_raises with (e := 1280%float).
  - exact Hfb.
  - apply shannon_hex_password. exact Hlog.
  - unfold pow2. rewrite Hpow. reflexivity.
Qed.

(** *** Masking and character classes *)

(** C7. A password longer than two characters keeps its first and its last
    character and has ['*'] at every position between them; a password of at
    most two characters becomes as many ['*'] as it has characters;
    [mask("ab")] is ["**"] and [mask("abcd")] is ["a**d"].  On the Shannon path
    the empty password is analysed, to length 0, entropy 0 and an empty
    mask.  Whenever it is analysed its length is 0 and its mask empty, and
    its entropy is 0 unless the estimator answered with an entropy of its
    own. *)
Theorem mask_password_spec :
  (forall pw i,
      (2 < String.length pw)%nat -> (i < String.length pw)%nat ->
      String.get i (_mask_password pw) =
      if (i =? 0)%nat || (i =? String.length pw - 1)%nat then String.get i pw
      else Some "*"%char)
  /\ (forall pw,
         (String.length pw <= 2)%nat ->
         _mask_password pw = str_repeat "*" (String.length pw))
  /\ _mask_password "ab" = "**"
  /\ _mask_password "abcd" = "a**d"
  /\ (fallback "" ->
      exists r,
        analyze "" = Ok r
        /\ dict_get r "length" = Some (VInt 0)
        /\ dict_get r "entropy_bits" = Some (VFloat 0)
        /\ dict_get r "password_masked" = Some (VStr ""))
  /\ (forall r,
         analyze "" = Ok r ->
         dict_get r "length" = Some (VInt 0)
         /\ dict_get r "password_masked" = Some (VStr "")
         /\ ((forall zres, zxcvbn "" = Ok zres -> dict_get zres "entropy" = None) ->
             dict_get r "entropy_bits" = Some (VFloat 0))).
Proof.
  split; [exact mask_long_get|]. split; [exact mask_short|].
  split; [reflexivity|]. split; [reflexivity|]. split.
  - intros Hfb.
    assert (He : shannon "" = Ok 0%float) by reflexivity.
    assert (Hp : pow2 libm_pow 0%float = Ok 1%float) by reflexivity.
    assert (Hg : forall notes,
               guesses_cell
                 (est_guesses
                    {| est_entropy_bits := 0%float; est_guesses := Some (py_max 1 1);
                       est_score := Some (_heuristic_score 0%float (Z.of_nat (String.length "")));
                       est_notes := notes |}) = Ok (VInt 1)) by reflexivity.
    destruct (sumbool_of_bool _HAS_ZXCVBN) as [Hhas|Hhas].
    + destruct Hfb as [Hfb|(ex & Hz)]; [congruence|].
      eexists. split.
      * apply analyze_ok_intro; [|apply Hg].
        exact (est_recovered _ _ _ _ "" ex _ _ Hhas Hz He Hp).
      * repeat split; reflexivity.
    + eexists. split.
      * apply analyze_ok_intro; [|apply Hg].
        exact (est_unavailable _ _ _ _ "" _ _ Hhas He Hp).
      * repeat split; reflexivity.
  - intros r Hr.
    apply analyze_ok_inv in Hr. destruct Hr as (est & gv & Hest & _ & ->).
    split; [reflexivity|]. split; [reflexivity|].
    intros Hnone.
    assert (Hempty : forall e, shannon "" = Ok e -> e = 0%float)
      by (intros e He; cbn in He; congruence).
    destruct Hest as [e p Hhas He Hp | est Hhas Hz | ex e p Hhas Hz He Hp].
    + cbn. now rewrite (Hempty e He).
    + apply zxcvbn_estimate_ok_inv in Hz.
      destruct Hz as (zres & d & e & p & g & s & Hzx & Hd & He & Hp & Hg & Hs & ->).
      unfold dict_get_default in He. rewrite (Hnone zres Hzx) in He.
      cbn in He. injection He as <-. cbn. now rewrite (Hempty d Hd).
    + cbn. now rewrite (Hempty e He).
Qed.

(** C10. The mask is as long as the password, in both of its cases, so the
    masked field of a result tells the length of the password, which the
    result also carries in [length]. *)
Theorem mask_reveals_length :
  (forall pw, String.length (_mask_password pw) = String.length pw)
  /\ (forall pw r,
         analyze pw = Ok r ->
         exists masked,
           dict_get r "password_masked" = Some (VStr masked)
           /\ String.length masked = String.length pw
           /\ dict_get r "length" = Some (VInt (Z.of_nat (String.length pw)))).
Proof.
  split; [exact mask_length|].
  intros pw r Hr.
  apply analyze_ok_inv in Hr. destruct Hr as (est & gv & _ & _ & ->).
  exists (_mask_password pw). repeat split. apply mask_length.
Qed.


End AnalysisFacts.

(** * Further properties of the code *)

(** ** Order on binary64 *)

Section FloatOrder.

Local Open Scope float_scope.

Lemma SFle_lt_trans (x y z : spec_float) :
  SFleb x y = true -> SFltb y z = true -> SFltb x z = true.
Proof.
  unfold SFleb, SFltb, SFcompare.
  destruct x as [sx|sx| |sx mx ex], y as [sy|sy| |sy my ey], z as [sz|sz| |sz mz ez];
    try destruct sx; try destruct sy; try destruct sz; simpl;
    try congruence;
    change (Pos.compare_cont Eq) with Pos.compare;
    repeat match goal with
      | |- context [Z.compare ?a ?b] => destruct (Z.compare_spec a b)
      | |- context [Pos.compare ?a ?b] => destruct (Pos.compare_spec a b)
      end; simpl; try congruence; try lia.
Qed.

Lemma le_lt_trans (x y z : float) :
  (x <=? y) = true -> (y <? z) = true -> (x <? z) = true.
Proof. rewrite leb_spec, !ltb_spec. apply SFle_lt_trans. Qed.

End FloatOrder.

Section ScoreFacts.

Local Open Scope float_scope.

(** X1. More entropy never lowers the fallback score. *)
Theorem heuristic_score_monotone (e1 e2 : float) (length : Z) :
  (e1 <=? e2) = true ->
  (_heuristic_score e1 length <= _heuristic_score e2 length)%Z.
Proof.
  intros Hle. unfold _heuristic_score.
  destruct (length =? 0)%Z; [lia|].
  pose proof (le_lt_trans e1 e2 28 Hle) as H28.
  pose proof (le_lt_trans e1 e2 36 Hle) as H36.
  pose proof (le_lt_trans e1 e2 60 Hle) as H60.
  pose proof (le_lt_trans e1 e2 80 Hle) as H80.
  destruct (e2 <? 28); [rewrite H28 by reflexivity; lia|].
  destruct (e2 <? 36); [rewrite H36 by reflexivity; destruct (e1 <? 28); lia|].
  destruct (e2 <? 60);
    [rewrite H60 by reflexivity; destruct (e1 <? 28), (e1 <? 36); lia|].
  destruct (e2 <? 80);
    [rewrite H80 by reflexivity; destruct (e1 <? 28), (e1 <? 36), (e1 <? 60); lia|].
  destruct (e1 <? 28), (e1 <? 36), (e1 <? 60), (e1 <? 80); lia.
Qed.

Lemma heuristic_score_monotone_witness :
  (30 <=? 70) = true /\ (_heuristic_score 30 8 <= _heuristic_score 70 8)%Z.
Proof.
  split; [reflexivity|].
  apply (heuristic_score_monotone 30 70 8). reflexivity.
Defined.

(** The entropies at or above a bound are those that are not below it and
    are numbers. *)
Lemma leb_iff_not_ltb (c e : float) :
  is_nan c = false ->
  (c <=? e) = true <-> (e <? c) = false /\ is_nan e = false.
Proof.
  rewrite leb_spec, ltb_spec, !is_nan_SF. unfold SFleb, SFltb, SFcompare.
  destruct (Prim2SF c) as [sc|sc| |sc mc ec], (Prim2SF e) as [se|se| |se me ee];
    try destruct sc; try destruct se; simpl; intros Hc;
    try (split; [intros H; split; congruence | intros [H1 H2]; congruence]);
    change (Pos.compare_cont Eq) with Pos.compare;
    rewrite (Z.compare_antisym ec ee), (Pos.compare_antisym mc me);
    destruct (Z.compare ec ee), (Pos.compare mc me); simpl;
    (split; [intros H; split; congruence | intros [H1 H2]; congruence]).
Qed.

(** X2. For a nonzero length the fallback score is 0 exactly below 28 bits,
    1 from 28 to below 36, 2 from 36 to below 60, 3 from 60 to below 80, and 4
    exactly from 80 bits on or when the entropy is not a number. *)
Theorem heuristic_score_bands (e : float) (length : Z) :
  length <> 0%Z ->
  (_heuristic_score e length = 0%Z <-> (e <? 28) = true)
  /\ (_heuristic_score e length = 1%Z <-> (28 <=? e) = true /\ (e <? 36) = true)
  /\ (_heuristic_score e length = 2%Z <-> (36 <=? e) = true /\ (e <? 60) = true)
  /\ (_heuristic_score e length = 3%Z <-> (60 <=? e) = true /\ (e <? 80) = true)
  /\ (_heuristic_score e length = 4%Z <-> (80 <=? e) = true \/ is_nan e = true).
Proof.
  intros Hlen. unfold _heuristic_score.
  apply Z.eqb_neq in Hlen. rewrite Hlen.
  pose proof (leb_iff_not_ltb 28 e eq_refl) as L28.
  pose proof (leb_iff_not_ltb 36 e eq_refl) as L36.
  pose proof (leb_iff_not_ltb 60 e eq_refl) as L60.
  pose proof (leb_iff_not_ltb 80 e eq_refl) as L80.
  assert (T1 : (e <? 28) = true -> (e <? 36) = true).
  { intros H. apply (le_lt_trans e 28 36); [|reflexivity].
    rewrite leb_spec. rewrite ltb_spec in H. unfold SFleb, SFltb in *.
    destruct (SFcompare (Prim2SF e) (Prim2SF 28)) as [[ | | ]|]; congruence. }
  assert (T2 : (e <? 36) = true -> (e <? 60) = true).
  { intros H. apply (le_lt_trans e 36 60); [|reflexivity].
    rewrite leb_spec. rewrite ltb_spec in H. unfold SFleb, SFltb in *.
    destruct (SFcompare (Prim2SF e) (Prim2SF 36)) as [[ | | ]|]; congruence. }
  assert (T3 : (e <? 60) = true -> (e <? 80) = true).
  { intros H. apply (le_lt_trans e 60 80); [|reflexivity].
    rewrite leb_spec. rewrite ltb_spec in H. unfold SFleb, SFltb in *.
    destruct (SFcompare (Prim2SF e) (Prim2SF 60)) as [[ | | ]|]; congruence. }
  assert (N : is_nan e = true -> (e <? 80) = false).
  { rewrite is_nan_SF, ltb_spec. destruct (Prim2SF e); try discriminate. reflexivity. }
  rewrite L28, L36, L60, L80. clear L28 L36 L60 L80.
  destruct (e <? 28) eqn:H28, (e <? 36) eqn:H36, (e <? 60) eqn:H60, (e <? 80) eqn:H80,
    (is_nan e) eqn:Hnan;
    try (specialize (T1 eq_refl)); try (specialize (T2 eq_refl));
    try (specialize (T3 eq_refl)); try (specialize (N eq_refl)); try discriminate;
    clear; intuition (try discriminate; try lia).
Qed.

Lemma heuristic_score_bands_witness :
  8%Z <> 0%Z
  /\ (_heuristic_score 40 8 = 2%Z <-> (36 <=? 40) = true /\ (40 <? 60) = true)
  /\ (_heuristic_score nan 8 = 4%Z <-> (80 <=? nan) = true \/ is_nan nan = true).
Proof.
  split; [discriminate|]. split.
  - apply (heuristic_score_bands 40 8). discriminate.
  - apply (heuristic_score_bands nan 8). discriminate.
Defined.

End ScoreFacts.

(** ** Masking *)

Lemma get_last (a b : ascii) (mid : string) :
  String.get (String.length (String a (mid ++ String b "")) - 1)
    (String a (mid ++ String b "")) = Some b.
Proof.
  assert (L : (String.length (String a (mid ++ String b "")) - 1
               = S (String.length mid + 0))%nat).
  { simpl. rewrite append_length. simpl. lia. }
  rewrite L. simpl String.get. apply (get_append_right mid (String b "") 0).
Qed.

(** X3. The mask depends on the password only through its length, its first
    and its last character; for a password of at most two characters, only
    through its length. *)
Theorem mask_depends_on_ends_only :
  (forall pw1 pw2,
      String.length pw1 = String.length pw2 ->
      (String.length pw1 <= 2)%nat ->
      _mask_password pw1 = _mask_password pw2)
  /\ (forall pw1 pw2,
         String.length pw1 = String.length pw2 ->
         String.get 0 pw1 = String.get 0 pw2 ->
         String.get (String.length pw1 - 1) pw1 = String.get (String.length pw2 - 1) pw2 ->
         _mask_password pw1 = _mask_password pw2).
Proof.
  assert (Hshort : forall pw1 pw2,
             String.length pw1 = String.length pw2 ->
             (String.length pw1 <= 2)%nat ->
             _mask_password pw1 = _mask_password pw2).
  { intros pw1 pw2 Hlen Hle.
    rewrite (mask_short pw1), (mask_short pw2) by lia. now rewrite Hlen. }
  split; [exact Hshort|].
  intros pw1 pw2 Hlen Hfirst Hlast.
  destruct (Nat.le_gt_cases (String.length pw1) 2) as [Hle|Hgt];
    [now apply Hshort|].
  destruct (string_ends pw1) as (a1 & mid1 & b1 & E1); [lia|].
  destruct (string_ends pw2) as (a2 & mid2 & b2 & E2); [lia|].
  rewrite E1, E2 in Hlast. rewrite !get_last in Hlast. injection Hlast as Hb.
  subst pw1 pw2. simpl in Hfirst. injection Hfirst as Ha.
  simpl in Hlen, Hgt. rewrite !append_length in Hlen. rewrite append_length in Hgt.
  simpl in Hlen, Hgt.
  assert (Hm1 : mid1 <> "") by (intros ->; simpl in Hgt; lia).
  assert (Hm2 : mid2 <> "") by (intros ->; simpl in Hlen, Hgt; lia).
  rewrite !mask_long by assumption.
  replace (String.length mid2) with (String.length mid1) by lia.
  now rewrite Ha, Hb.
Qed.

Lemma mask_depends_on_ends_only_witness :
  _mask_password "correct horse" = _mask_password "crimson morse"
  /\ _mask_password "ab" = _mask_password "xy".
Proof.
  split.
  - apply (proj2 mask_depends_on_ends_only "correct horse" "crimson morse");
      reflexivity.
  - apply (proj1 mask_depends_on_ends_only "ab" "xy"); [reflexivity | simpl; lia].
Defined.

(** X4. Masking a mask changes nothing. *)
Theorem mask_idempotent (pw : string) :
  _mask_password (_mask_password pw) = _mask_password pw.
Proof.
  destruct (Nat.le_gt_cases (String.length pw) 2) as [Hle|Hgt].
  - rewrite (mask_short pw) by exact Hle.
    rewrite mask_short by (rewrite str_repeat_length; exact Hle).
    now rewrite str_repeat_length.
  - destruct (string_ends pw) as (a & mid & b & ->); [lia|].
    assert (Hmid : mid <> "") by (intros ->; simpl in Hgt; lia).
    rewrite mask_long by exact Hmid.
    assert (Hstars : str_repeat "*" (String.length mid) <> "").
    { destruct mid; [congruence | discriminate]. }
    rewrite mask_long by exact Hstars.
    now rewrite str_repeat_length.
Qed.

(** ** The analysis: shape, errors and the estimator *)

Section AnalysisShape.

Variable libm_log2 : float -> float.
Variable libm_pow : float -> float -> float.
Variable _HAS_ZXCVBN : bool.
Variable zxcvbn : string -> result (list (string * num)).

Local Abbreviation analyze := (analyze_password libm_log2 libm_pow _HAS_ZXCVBN zxcvbn).
Local Abbreviation shannon := (_shannon_entropy_bits libm_log2).
Local Abbreviation estimated_by := (estimated libm_log2 libm_pow _HAS_ZXCVBN zxcvbn).
Local Abbreviation zxcvbn_est := (zxcvbn_estimate libm_log2 libm_pow zxcvbn).
Local Abbreviation fallback := (from_fallback libm_log2 libm_pow _HAS_ZXCVBN zxcvbn).

(** Every ending of the estimation has assigned the guesses and the score,
    and at most one note, which is a string. *)
Lemma estimated_shape (pw : string) (est : estimate) :
  estimated_by pw est ->
  (exists g, est_guesses est = Some g)
  /\ (exists s, est_score est = Some s)
  /\ (exists notes, est_notes est = map VStr notes /\ (List.length notes <= 1)%nat).
Proof.
  intros [e p Hhas He Hp | est' Hhas Hz | ex e p Hhas Hz He Hp]; simpl.
  - repeat split; eauto.
    eexists [_]. split; [reflexivity | simpl; lia].
  - apply zxcvbn_estimate_ok_inv in Hz.
    destruct Hz as (zres & d & e & p & g & s & _ & _ & _ & _ & _ & _ & ->). simpl.
    repeat split; eauto. exists []. split; [reflexivity | simpl; lia].
  - repeat split; eauto.
    eexists [_]. split; [reflexivity | simpl; lia].
Qed.

(** X5. A result always has the same eleven keys in the same order; its
    guesses and its score are integers, never [None]; its notes are a list of
    at most one string. *)
Theorem analysis_result_shape (pw : string) (r : dict) :
  analyze pw = Ok r ->
  map fst r = [ "password_masked"; "length"; "has_upper"; "has_lower"; "has_digit";
                "has_symbol"; "charset_size_est"; "entropy_bits"; "guesses"; "score";
                "notes" ]
  /\ (exists z, dict_get r "guesses" = Some (VInt z))
  /\ (exists s, dict_get r "score" = Some (VInt s))
  /\ (exists notes,
         dict_get r "notes" = Some (VList (map VStr notes))
         /\ (List.length notes <= 1)%nat).
Proof.
  intros Hr.
  apply analyze_ok_inv in Hr. destruct Hr as (est & gv & Hest & Hgv & ->).
  apply estimated_shape in Hest.
  destruct Hest as ((g & Hg) & (s & Hs) & (notes & Hn & Hlen)).
  rewrite Hg in Hgv. simpl in Hgv. bind_inv Hgv. injection Hgv as <-.
  split; [reflexivity|]. split; [exists a; reflexivity|].
  split; [exists s; simpl; now rewrite Hs|].
  exists notes. simpl. rewrite Hn. auto.
Qed.

(** X6. An overflow of [2 ** entropy] on the Shannon path is not recovered:
    when the C library's [pow] overflows there, [analyze_password] raises
    [OverflowError], without the estimator as well as after its failure. *)
Theorem shannon_overflow_not_recovered (pw : string) (e : float) :
  fallback pw ->
  shannon pw = Ok e ->
  is_finite e = true -> (e =? 0)%float = false ->
  libm_pow 2%float e = infinity ->
  analyze pw = Raise (OverflowError "(34, 'Numerical result out of range')").
Proof.
  intros Hfb He Hfin Hnz Hpow.
  apply analyze_fallback_raises with (e := e); [exact Hfb | exact He |].
  unfold pow2. rewrite Hnz.
  unfold is_finite in Hfin. apply andb_prop in Hfin. destruct Hfin as [Hn Hi].
  apply negb_true_iff in Hn, Hi. rewrite Hn, Hi, Hpow. reflexivity.
Qed.

Lemma zxcvbn_raises_estimate (pw : string) (notes : list pyval) (ex : exn) :
  zxcvbn pw = Raise ex -> zxcvbn_est pw notes = Raise ex.
Proof. intros H. unfold zxcvbn_estimate. rewrite H. reflexivity. Qed.

(** X7. A failure of the estimator, or of anything else in the [try] block,
    is recovered when the Shannon path succeeds: the result carries the
    Shannon entropy, its guesses and heuristic score, and one note that
    quotes the exception. *)
Theorem estimator_failure_recovered (pw : string) (ex : exn) (e p : float) (z : Z) :
  _HAS_ZXCVBN = true ->
  zxcvbn pw = Raise ex \/ zxcvbn_est pw [] = Raise ex ->
  shannon pw = Ok e ->
  pow2 libm_pow e = Ok p ->
  int_of_float (py_max 1 p) = Ok z ->
  analyze pw =
  Ok (analysis_record pw
        {| est_entropy_bits := e;
           est_guesses := Some (py_max 1 p);
           est_score := Some (_heuristic_score e (Z.of_nat (String.length pw)));
           est_notes := [VStr ("zxcvbn error: " ++ exn_str ex
                               ++ "; falling back to Shannon entropy")] |}
        (VInt z)).
Proof.
  intros Hhas Hex He Hp Hz.
  assert (Hest : zxcvbn_est pw [] = Raise ex).
  { destruct Hex as [H|H]; [now apply zxcvbn_raises_estimate | exact H]. }
  apply analyze_ok_intro.
  - now apply est_recovered.
  - simpl. rewrite Hz. reflexivity.
Qed.

(** X8. The default of [zres.get("guesses", ...)] is evaluated before the
    lookup: when [2 ** entropy] overflows for the estimator's entropy, the
    estimator's answer is dropped, guesses and score included, and the
    result is that of the Shannon path with a note quoting the overflow. *)
Theorem estimator_answer_dropped_on_overflow
  (pw : string) (zres : list (string * num)) (d e p : float) (ex : exn) (z : Z) :
  _HAS_ZXCVBN = true ->
  zxcvbn pw = Ok zres ->
  shannon pw = Ok d ->
  py_float (dict_get_default zres "entropy" (NFloat d)) = Ok e ->
  pow2 libm_pow e = Raise ex ->
  pow2 libm_pow d = Ok p ->
  int_of_float (py_max 1 p) = Ok z ->
  analyze pw =
  Ok (analysis_record pw
        {| est_entropy_bits := d;
           est_guesses := Some (py_max 1 p);
           est_score := Some (_heuristic_score d (Z.of_nat (String.length pw)));
           est_notes := [VStr ("zxcvbn error: " ++ exn_str ex
                               ++ "; falling back to Shannon entropy")] |}
        (VInt z)).
Proof.
  intros Hhas Hzx Hd He Hex Hp Hz.
  apply analyze_ok_intro.
  - apply est_recovered; try assumption.
    unfold zxcvbn_estimate. rewrite Hzx. simpl. rewrite Hd. simpl.
    rewrite He. simpl. rewrite Hex. reflexivity.
  - simpl. rewrite Hz. reflexivity.
Qed.

(** X9. With an estimator that answers with guesses and a score but no
    entropy, as long as the Shannon path would not fail either, the result
    carries the Shannon entropy next to the estimator's guesses and score,
    and no note. *)
Theorem estimator_answer_used
  (pw : string) (zres : list (string * num)) (gv sv : num) (d p g : float) (s z : Z) :
  _HAS_ZXCVBN = true ->
  zxcvbn pw = Ok zres ->
  dict_get zres "entropy" = None ->
  dict_get zres "guesses" = Some gv ->
  dict_get zres "score" = Some sv ->
  shannon pw = Ok d ->
  pow2 libm_pow d = Ok p ->
  py_float gv = Ok g ->
  py_int sv = Ok s ->
  int_of_float g = Ok z ->
  analyze pw =
  Ok (analysis_record pw
        {| est_entropy_bits := d; est_guesses := Some g;
           est_score := Some s; est_notes := [] |}
        (VInt z)).
Proof.
  intros Hhas Hzx Hne Hgv Hsv Hd Hp Hg Hs Hz.
  apply analyze_ok_intro.
  - apply est_answered; [assumption|].
    unfold zxcvbn_estimate, dict_get_default.
    rewrite Hzx. simpl. rewrite Hd. simpl. rewrite Hne. simpl. rewrite Hp. simpl.
    rewrite Hgv, Hg. simpl. rewrite Hsv, Hs. reflexivity.
  - simpl. rewrite Hz. reflexivity.
Qed.

End AnalysisShape.

(** X10. The mask, the length, the four class flags and the size of the
    character set of a result do not depend on the estimator, on its
    availability or on the C library: two analyses of a password that both
    return agree on them. *)
Theorem analysis_classes_independent
  (log2a log2b : float -> float) (powa powb : float -> float -> float)
  (hasa hasb : bool) (zxa zxb : string -> result (list (string * num)))
  (pw : string) (ra rb : dict) (key : string) :
  analyze_password log2a powa hasa zxa pw = Ok ra ->
  analyze_password log2b powb hasb zxb pw = Ok rb ->
  In key [ "password_masked"; "length"; "has_upper"; "has_lower"; "has_digit";
           "has_symbol"; "charset_size_est" ] ->
  dict_get ra key = dict_get rb key.
Proof.
  intros Ha Hb Hkey.
  apply analyze_ok_inv in Ha. destruct Ha as (esta & gva & _ & _ & ->).
  apply analyze_ok_inv in Hb. destruct Hb as (estb & gvb & _ & _ & ->).
  simpl in Hkey.
  repeat (destruct Hkey as [<-|Hkey]; [reflexivity|]). contradiction.
Qed.

(** ** The converter at its edges *)

Section ConverterEdges.

Local Open Scope float_scope.

Lemma nan_unique (x : float) : is_nan x = true -> x = nan.
Proof.
  rewrite is_nan_SF. intros H. apply Prim2SF_inj.
  change (Prim2SF nan) with S754_nan.
  destruct (Prim2SF x); try discriminate. reflexivity.
Qed.

Lemma div_nan_r (x : float) : x / nan = nan.
Proof.
  apply Prim2SF_inj. rewrite div_spec.
  change (Prim2SF nan) with S754_nan.
  unfold SF64div, SFdiv. destruct (Prim2SF x); reflexivity.
Qed.

(** X11. A rate that is not a number passes the guard against rates [<= 0]:
    the converter then returns, with NaN seconds that read "nan years". *)
Theorem nan_rate_not_rejected (guesses guesses_per_second : float) :
  is_nan guesses_per_second = true ->
  estimate_crack_time_from_guesses guesses guesses_per_second
  = Ok [ ("seconds", VFloat nan);
         ("human_readable", VStr "nan years");
         ("guesses_per_second", VFloat nan) ].
Proof.
  intros H. apply nan_unique in H. subst guesses_per_second.
  unfold estimate_crack_time_from_guesses, float_truediv.
  change (nan <=? 0) with false. change (nan =? 0) with false. cbv iota.
  rewrite div_nan_r. reflexivity.
Qed.

Lemma nan_rate_not_rejected_witness :
  is_nan (0 / 0) = true
  /\ estimate_crack_time_from_guesses 1000000 (0 / 0)
     = Ok [ ("seconds", VFloat nan);
            ("human_readable", VStr "nan years");
            ("guesses_per_second", VFloat nan) ].
Proof.
  split; [reflexivity|].
  apply (nan_rate_not_rejected 1000000 (0 / 0)). reflexivity.
Defined.

End ConverterEdges.

(** ** The loop of the command line *)

Lemma positive_not_zero (x : float) : (0 <? x)%float = true -> (x =? 0)%float = false.
Proof.
  rewrite ltb_spec, eqb_spec. unfold SFltb, SFeqb.
  change (Prim2SF 0) with (S754_zero false).
  destruct (Prim2SF x) as [s|s| |s m e]; simpl; try destruct s; congruence.
Qed.

(** The rate of a preset, known or not, is positive. *)
Lemma preset_rate_positive (preset : string) :
  (0 <? dict_get_default CRACK_SPEED_PRESETS preset 1e3)%float = true.
Proof.
  unfold dict_get_default, CRACK_SPEED_PRESETS. simpl.
  destruct (String.eqb preset "conservative_cpu"); [reflexivity|].
  destruct (String.eqb preset "mid_gpu"); [reflexivity|].
  destruct (String.eqb preset "fast_gpu"); reflexivity.
Qed.

Lemma select_speed_positive (args : cli_args) : (0 <? select_speed args)%float = true.
Proof.
  unfold select_speed.
  destruct (args_custom_speed args) as [custom|]; [|apply preset_rate_positive].
  destruct (negb (custom =? 0)%float && (0 <? custom)%float) eqn:H;
    [|apply preset_rate_positive].
  apply andb_prop in H. apply H.
Qed.

(** X12. The rate that the command line hands to the converter is the
    custom rate when that is [> 0], and otherwise (no custom rate, zero,
    negative or NaN) the rate of the preset, 1e3 for an unknown preset; in
    every case it is [> 0]. *)
Theorem select_speed_spec (args : cli_args) :
  (forall custom,
      args_custom_speed args = Some custom -> (0 <? custom)%float = true ->
      select_speed args = custom)
  /\ (forall custom,
         args_custom_speed args = Some custom -> (0 <? custom)%float = false ->
         select_speed args
         = dict_get_default CRACK_SPEED_PRESETS (args_preset args) 1e3%float)
  /\ (args_custom_speed args = None ->
      select_speed args = dict_get_default CRACK_SPEED_PRESETS (args_preset args) 1e3%float)
  /\ (0 <? select_speed args)%float = true.
Proof.
  split; [|split; [|split]]; [| | |apply select_speed_positive]; unfold select_speed.
  - intros custom -> Hpos. now rewrite (positive_not_zero _ Hpos), Hpos.
  - intros custom -> Hneg. rewrite Hneg, andb_false_r. reflexivity.
  - intros ->. reflexivity.
Qed.

Section CliFacts.

Variable libm_log2 : float -> float.
Variable libm_pow : float -> float -> float.
Variable _HAS_ZXCVBN : bool.
Variable zxcvbn : string -> result (list (string * num)).
Variable float_of_str : string -> result float.

Local Abbreviation analyze := (analyze_password libm_log2 libm_pow _HAS_ZXCVBN zxcvbn).
Local Abbreviation entry :=
  (cli_entry libm_log2 libm_pow _HAS_ZXCVBN zxcvbn float_of_str).
Local Abbreviation loop :=
  (cli_loop libm_log2 libm_pow _HAS_ZXCVBN zxcvbn float_of_str).
Local Abbreviation results_of :=
  (cli_results libm_log2 libm_pow _HAS_ZXCVBN zxcvbn float_of_str).

Lemma analyze_guesses_int (pw : string) (r : dict) :
  analyze pw = Ok r ->
  exists est z, r = analysis_record pw est (VInt z).
Proof.
  intros Hr.
  apply analyze_ok_inv in Hr. destruct Hr as (est & gv & Hest & Hgv & ->).
  apply estimated_shape in Hest. destruct Hest as ((g & Hg) & _).
  rewrite Hg in Hgv. simpl in Hgv. bind_inv Hgv. injection Hgv as <-.
  eauto.
Qed.

(** The converter at the rate of the command line. *)
Lemma estimate_at_selected_speed (args : cli_args) (g : float) :
  estimate_crack_time_from_guesses g (select_speed args)
  = Ok [ ("seconds", VFloat (g / select_speed args)%float);
         ("human_readable", VStr (_human_readable_seconds (g / select_speed args)%float));
         ("guesses_per_second", VFloat (select_speed args)) ].
Proof.
  pose proof (select_speed_positive args) as Hpos.
  unfold estimate_crack_time_from_guesses, float_truediv.
  rewrite (ltb_zero_not_leb _ Hpos), (positive_not_zero _ Hpos). reflexivity.
Qed.

(** The body of the loop, once the analysis has returned. *)
Lemma cli_entry_after_analysis (args : cli_args) (pw : string) (est : estimate) (z : Z) :
  analyze pw = Ok (analysis_record pw est (VInt z)) ->
  entry args pw =
  match float_of_int z with
  | Ok g => Returned (analysis_record pw est (VInt z) ++ cli_timing args g)%list
  | Raise ex => Raised (CoreError ex)
  end.
Proof.
  intros Hr. unfold cli_entry. rewrite Hr. simpl.
  destruct (float_of_int z) as [g|ex]; [|reflexivity]. simpl.
  rewrite estimate_at_selected_speed. reflexivity.
Qed.

(** X13. An entry of the loop that returns is the analysis result of the
    password followed by three more keys: the seconds [float(guesses) /
    rate], their human-readable form, and the assumptions (preset and
    rate). *)
Theorem cli_entry_extends_analysis (args : cli_args) (pw : string) (r' : dict) :
  entry args pw = Returned r' ->
  exists r z g,
    analyze pw = Ok r
    /\ dict_get r "guesses" = Some (VInt z)
    /\ float_of_int z = Ok g
    /\ r' = (r ++ cli_timing args g)%list.
Proof.
  intros H.
  destruct (analyze pw) as [r|ex] eqn:Hr;
    [|unfold cli_entry in H; rewrite Hr in H; discriminate].
  destruct (analyze_guesses_int pw r Hr) as (est & z & ->).
  rewrite (cli_entry_after_analysis args pw est z Hr) in H.
  destruct (float_of_int z) as [g|ex] eqn:Hg; [|discriminate].
  injection H as <-. exists (analysis_record pw est (VInt z)), z, g. auto.
Qed.

(** X14. An entry of the loop raises only what the analysis raises or what
    [float(guesses)] raises; it never raises [KeyError], and the converter
    never rejects the rate. *)
Theorem cli_entry_errors (args : cli_args) (pw : string) (e : cli_exn) :
  entry args pw = Raised e ->
  exists ex,
    e = CoreError ex
    /\ (analyze pw = Raise ex
        \/ exists r z,
            analyze pw = Ok r /\ dict_get r "guesses" = Some (VInt z)
            /\ float_of_int z = Raise ex).
Proof.
  intros H.
  destruct (analyze pw) as [r|ex] eqn:Hr.
  - destruct (analyze_guesses_int pw r Hr) as (est & z & ->).
    rewrite (cli_entry_after_analysis args pw est z Hr) in H.
    destruct (float_of_int z) as [g|ex] eqn:Hg; [discriminate|].
    injection H as <-. exists ex. split; [reflexivity|]. right.
    exists (analysis_record pw est (VInt z)), z. auto.
  - unfold cli_entry in H. rewrite Hr in H. simpl in H. injection H as <-.
    exists ex. auto.
Qed.

Lemma cli_loop_returned (args : cli_args) (passwords : list string) (acc rs : list dict) :
  loop args passwords acc = Returned rs <->
  exists rs', rs = (acc ++ rs')%list
              /\ Forall2 (fun pw r => entry args pw = Returned r) passwords rs'.
Proof.
  revert acc rs. induction passwords as [|pw passwords IH]; intros acc rs; simpl.
  - split.
    + intros H. injection H as <-. exists []. rewrite app_nil_r. auto.
    + intros (rs' & -> & H). inversion H. now rewrite app_nil_r.
  - destruct (entry args pw) as [r|e] eqn:He; simpl.
    + rewrite IH. split.
      * intros (rs' & -> & H). exists (r :: rs'). rewrite <- app_assoc. auto.
      * intros (rs' & -> & H). inversion H as [|? r0 ? rs0 Hr0 Hrest]; subst.
        assert (r0 = r) by congruence. subst r0.
        exists rs0. rewrite <- app_assoc. auto.
    + split; [discriminate|].
      intros (rs' & _ & H). inversion H; subst. congruence.
Qed.

(** X15. The loop returns exactly when every entry returns, and then with
    the entries of the passwords, one for each, in the order of the
    passwords. *)
Theorem cli_results_in_order (args : cli_args) (rs : list dict) :
  results_of args = Returned rs <->
  Forall2 (fun pw r => entry args pw = Returned r) (args_passwords args) rs.
Proof.
  unfold cli_results. rewrite cli_loop_returned. simpl. split.
  - intros (rs' & -> & H). exact H.
  - intros H. exists rs. auto.
Qed.

Lemma cli_loop_raised (args : cli_args) (before after : list string) (pw : string)
  (acc : list dict) (e : cli_exn) :
  Forall (fun p => exists r, entry args p = Returned r) before ->
  entry args pw = Raised e ->
  loop args (before ++ pw :: after) acc = Raised e.
Proof.
  intros Hbefore He. revert acc.
  induction Hbefore as [|p before (r & Hr) _ IH]; intros acc; simpl.
  - rewrite He. reflexivity.
  - rewrite Hr. simpl. apply IH.
Qed.

(** X16. The passwords of a batch are not isolated: the first entry that
    raises ends the loop with its exception, and no result of the batch is
    left, whatever the passwords before and after it. *)
Theorem cli_batch_aborts (args : cli_args) (before after : list string) (pw : string)
  (e : cli_exn) :
  args_passwords args = (before ++ pw :: after)%list ->
  Forall (fun p => exists r, entry args p = Returned r) before ->
  entry args pw = Raised e ->
  results_of args = Raised e.
Proof.
  intros Hargs Hbefore He. unfold cli_results. rewrite Hargs.
  now apply cli_loop_raised.
Qed.

End CliFacts.

(** ** The CSV report *)

Lemma dict_get_set_same {V : Type} (d : list (string * V)) (k : string) (v : V) :
  dict_get (dict_set d k v) k = Some v.
Proof.
  induction d as [|[k' v'] d IH]; simpl.
  - now rewrite String.eqb_refl.
  - destruct (String.eqb k k') eqn:E; simpl; rewrite E; [reflexivity | exact IH].
Qed.

Lemma dict_get_set_other {V : Type} (d : list (string * V)) (k k' : string) (v : V) :
  k' <> k -> dict_get (dict_set d k v) k' = dict_get d k'.
Proof.
  intros Hne. induction d as [|[k0 v0] d IH]; simpl.
  - apply String.eqb_neq in Hne. now rewrite Hne.
  - destruct (String.eqb k k0) eqn:E; simpl.
    + apply String.eqb_eq in E. subst k0.
      apply String.eqb_neq in Hne. now rewrite Hne.
    + destruct (String.eqb k' k0); [reflexivity | exact IH].
Qed.

(** The cell of the notes in the dictionary of a row is the notes text. *)
Lemma csv_rowdict_notes (i : Z) (r : dict) :
  csv_rowdict i r =
  (t <- csv_notes r ;;
   Ok [ ("password_id", VStr ("p" ++ dec_of_Z i));
        ("password_masked", dict_get_default r "password_masked" (VStr ""));
        ("length", dict_get_default r "length" (VStr ""));
        ("entropy_bits", dict_get_default r "entropy_bits" (VStr ""));
        ("guesses", dict_get_default r "guesses" (VStr ""));
        ("score", dict_get_default r "score" (VStr ""));
        ("notes", VStr t) ]).
Proof.
  unfold csv_rowdict, csv_notes.
  destruct (truthy (dict_get_default r "notes" VNone)); [|reflexivity].
  destruct (py_join " | " (dict_get_default r "notes" (VList []))); reflexivity.
Qed.

(** Writing the row of one result, as an action on the files. *)
Lemma write_one_result (filename : string) (i : Z) (r : dict) (fs : filesystem) :
  io_bind (io_lift (csv_rowdict i r)) (dictwriter_writerow filename csv_fieldnames) fs =
  match csv_notes r with
  | Ok t => writerow filename (csv_cells i r t) fs
  | Raise e => (fs, Raise e)
  end.
Proof.
  unfold io_bind, io_lift. rewrite csv_rowdict_notes.
  destruct (csv_notes r) as [t|e]; reflexivity.
Qed.

Lemma writerow_rows (filename : string) (row : csv_row) (fs : filesystem)
  (rows : list csv_row) :
  read_rows fs filename = Some rows ->
  snd (writerow filename row fs) = Ok tt
  /\ read_rows (fst (writerow filename row fs)) filename = Some (rows ++ [row])%list.
Proof.
  unfold read_rows, writerow. intros H. simpl. split; [reflexivity|].
  rewrite dict_get_set_same. unfold dict_get_default. now rewrite H.
Qed.

Lemma writerow_frame (filename other : string) (row : csv_row) (fs : filesystem) :
  other <> filename ->
  read_rows (fst (writerow filename row fs)) other = read_rows fs other.
Proof. intros H. unfold read_rows, writerow. simpl. now apply dict_get_set_other. Qed.

(** One turn of the loop over the results. *)
Lemma write_results_step (filename : string) (i : Z) (r : dict) (results : list dict)
  (fs : filesystem) :
  write_results filename csv_fieldnames i (r :: results) fs =
  match csv_notes r with
  | Ok t =>
      write_results filename csv_fieldnames (i + 1) results
        (fst (writerow filename (csv_cells i r t) fs))
  | Raise e => (fs, Raise e)
  end.
Proof.
  cbn [write_results]. unfold io_bind at 1. rewrite write_one_result.
  destruct (csv_notes r) as [t|e]; reflexivity.
Qed.

(** The loop over the results, as long as the notes of each can be joined. *)
Lemma write_results_rows (filename : string) (results : list dict) (notes : list string) :
  Forall2 (fun r t => csv_notes r = Ok t) results notes ->
  forall (i : Z) (fs : filesystem) (rows : list csv_row),
    read_rows fs filename = Some rows ->
    snd (write_results filename csv_fieldnames i results fs) = Ok tt
    /\ read_rows (fst (write_results filename csv_fieldnames i results fs)) filename
       = Some (rows ++ csv_numbered i results notes)%list.
Proof.
  induction 1 as [|r t results notes Hr _ IH]; intros i fs rows Hrows.
  - simpl. rewrite app_nil_r. auto.
  - rewrite write_results_step, Hr. cbn [csv_numbered].
    destruct (writerow_rows filename (csv_cells i r t) fs rows Hrows) as [_ Hrd].
    destruct (IH (i + 1) _ _ Hrd) as [Hok' Hrd'].
    rewrite <- app_assoc in Hrd'. auto.
Qed.

(** The loop up to the first result whose notes cannot be joined. *)
Lemma write_results_stops (filename : string) (good : list dict) (notes : list string)
  (bad : dict) (rest : list dict) (e : exn) :
  Forall2 (fun r t => csv_notes r = Ok t) good notes ->
  csv_notes bad = Raise e ->
  forall (i : Z) (fs : filesystem) (rows : list csv_row),
    read_rows fs filename = Some rows ->
    snd (write_results filename csv_fieldnames i (good ++ bad :: rest) fs) = Raise e
    /\ read_rows (fst (write_results filename csv_fieldnames i (good ++ bad :: rest) fs))
         filename
       = Some (rows ++ csv_numbered i good notes)%list.
Proof.
  intros Hgood Hbad.
  induction Hgood as [|r t good notes Hr _ IH]; intros i fs rows Hrows.
  - cbn [app]. rewrite write_results_step, Hbad. simpl. rewrite app_nil_r. auto.
  - cbn [app csv_numbered]. rewrite write_results_step, Hr.
    destruct (writerow_rows filename (csv_cells i r t) fs rows Hrows) as [_ Hrd].
    destruct (IH (i + 1) _ _ Hrd) as [Hok' Hrd'].
    rewrite <- app_assoc in Hrd'. auto.
Qed.

Lemma write_results_frame (filename other : string) (results : list dict) :
  other <> filename ->
  forall (i : Z) (fs : filesystem),
    read_rows (fst (write_results filename csv_fieldnames i results fs)) other
    = read_rows fs other.
Proof.
  intros Hne. induction results as [|r results IH]; intros i fs; [reflexivity|].
  rewrite write_results_step.
  destruct (csv_notes r) as [t|e]; [|reflexivity].
  rewrite IH. now apply writerow_frame.
Qed.

(** Two runs of the loop on files that agree on the report end alike. *)
Lemma write_results_agree (filename : string) (results : list dict) :
  forall (i : Z) (fs1 fs2 : filesystem),
    read_rows fs1 filename = read_rows fs2 filename ->
    snd (write_results filename csv_fieldnames i results fs1)
    = snd (write_results filename csv_fieldnames i results fs2)
    /\ read_rows (fst (write_results filename csv_fieldnames i results fs1)) filename
       = read_rows (fst (write_results filename csv_fieldnames i results fs2)) filename.
Proof.
  induction results as [|r results IH]; intros i fs1 fs2 Hagree; [simpl; auto|].
  rewrite !write_results_step.
  destruct (csv_notes r) as [t|e]; [|simpl; auto].
  apply IH. unfold read_rows, writerow in *. simpl. rewrite !dict_get_set_same.
  unfold dict_get_default. now rewrite Hagree.
Qed.

Lemma open_w_allowed (filename : string) (fs : filesystem) :
  fs_denied fs filename = false ->
  snd (open_w filename fs) = Ok tt
  /\ read_rows (fst (open_w filename fs)) filename = Some [].
Proof.
  intros H. unfold open_w, read_rows. rewrite H. simpl.
  now rewrite dict_get_set_same.
Qed.

Lemma open_w_frame (filename other : string) (fs : filesystem) :
  other <> filename ->
  read_rows (fst (open_w filename fs)) other = read_rows fs other.
Proof.
  intros H. unfold open_w, read_rows.
  destruct (fs_denied fs filename); simpl; [reflexivity|].
  now apply dict_get_set_other.
Qed.

(** The report, from the moment the file is open. *)
Lemma save_csv_report_opened (meta : dict) (results : list dict) (filename : string)
  (fs : filesystem) :
  fs_denied fs filename = false ->
  save_csv_report meta results filename fs
  = write_results filename csv_fieldnames 1 results
      (fst (writerow filename csv_header (fst (open_w filename fs)))).
Proof.
  intros H. unfold save_csv_report.
  destruct results as [|r results].
  - unfold io_bind, open_w. rewrite H. reflexivity.
  - unfold io_bind at 1, open_w. rewrite H. reflexivity.
Qed.

Lemma csv_numbered_length (results : list dict) (notes : list string) (i : Z) :
  List.length results = List.length notes ->
  List.length (csv_numbered i results notes) = List.length results.
Proof.
  revert notes i. induction results as [|r results IH]; intros [|t notes] i H;
    simpl in *; try reflexivity; try discriminate.
  f_equal. apply IH. lia.
Qed.

Lemma csv_numbered_nth (results : list dict) (notes : list string) (i : Z) (k : nat)
  (r : dict) (t : string) :
  nth_error results k = Some r -> nth_error notes k = Some t ->
  nth_error (csv_numbered i results notes) k = Some (csv_cells (i + Z.of_nat k) r t).
Proof.
  revert notes i k. induction results as [|r0 results IH]; intros [|t0 notes] i [|k] Hr Ht;
    simpl in *; try discriminate.
  - injection Hr as <-. injection Ht as <-. now rewrite Z.add_0_r.
  - rewrite (IH notes (i + 1) k Hr Ht). f_equal. f_equal. lia.
Qed.

(** The report of results whose notes can be joined. *)
Lemma save_csv_report_numbered (meta : dict) (results : list dict) (notes : list string)
  (filename : string) (fs : filesystem) :
  fs_denied fs filename = false ->
  Forall2 (fun r t => csv_notes r = Ok t) results notes ->
  snd (save_csv_report meta results filename fs) = Ok tt
  /\ read_rows (fst (save_csv_report meta results filename fs)) filename
     = Some (csv_header :: csv_numbered 1 results notes).
Proof.
  intros Hd Hnotes.
  rewrite (save_csv_report_opened meta results filename fs Hd).
  destruct (open_w_allowed filename fs Hd) as [_ Hopen].
  destruct (writerow_rows filename csv_header _ [] Hopen) as [_ Hhead].
  exact (write_results_rows filename results notes Hnotes 1 _ _ Hhead).
Qed.

Lemma save_csv_report_refused (meta : dict) (results : list dict) (filename : string)
  (fs : filesystem) :
  fs_denied fs filename = true ->
  save_csv_report meta results filename fs
  = (fs, Raise (OSError ("[Errno 13] Permission denied: '" ++ filename ++ "'"))).
Proof.
  intros H. unfold save_csv_report.
  destruct results; unfold io_bind, open_w; rewrite H; reflexivity.
Qed.

(** Either the notes of all results can be joined, or there is a first result
    whose notes cannot. *)
Lemma notes_joinable_or_not (results : list dict) :
  (exists notes, Forall2 (fun r t => csv_notes r = Ok t) results notes)
  \/ (exists good notes bad rest e,
         results = (good ++ bad :: rest)%list
         /\ Forall2 (fun r t => csv_notes r = Ok t) good notes
         /\ csv_notes bad = Raise e).
Proof.
  induction results as [|r results IH].
  - left. exists []. constructor.
  - destruct (csv_notes r) as [t|e] eqn:Hr.
    + destruct IH as [(notes & H)|(good & notes & bad & rest & e & -> & Hgood & Hbad)].
      * left. exists (t :: notes). now constructor.
      * right. exists (r :: good), (t :: notes), bad, rest, e.
        split; [reflexivity|]. split; [now constructor | exact Hbad].
    + right. exists [], [], r, results, e.
      split; [reflexivity|]. split; [constructor | exact Hr].
Qed.

(** What a report that returned went through: the file could be opened, the
    notes of every result could be joined, and the rows are in the file. *)
Lemma save_csv_report_returned (meta : dict) (results : list dict) (filename : string)
  (fs : filesystem) :
  snd (save_csv_report meta results filename fs) = Ok tt ->
  fs_denied fs filename = false
  /\ exists notes,
       Forall2 (fun r t => csv_notes r = Ok t) results notes
       /\ read_rows (fst (save_csv_report meta results filename fs)) filename
          = Some (csv_header :: csv_numbered 1 results notes).
Proof.
  intros Hret.
  destruct (fs_denied fs filename) eqn:Hd.
  - rewrite (save_csv_report_refused meta results filename fs Hd) in Hret. discriminate.
  - split; [reflexivity|].
    destruct (notes_joinable_or_not results)
      as [(notes & Hnotes)|(good & notes & bad & rest & e & -> & Hgood & Hbad)].
    + exists notes. split; [exact Hnotes|].
      apply (save_csv_report_numbered meta results notes filename fs Hd Hnotes).
    + rewrite (save_csv_report_opened meta _ filename fs Hd) in Hret.
      destruct (open_w_allowed filename fs Hd) as [_ Hopen].
      destruct (writerow_rows filename csv_header _ [] Hopen) as [_ Hhead].
      destruct (write_results_stops filename good notes bad rest e Hgood Hbad 1 _ _ Hhead)
        as [Hraise _].
      rewrite Hraise in Hret. discriminate.
Qed.

(** The notes of the [k]-th result are the [k]-th notes text. *)
Lemma notes_nth (results : list dict) (notes : list string) :
  Forall2 (fun r t => csv_notes r = Ok t) results notes ->
  forall k r, nth_error results k = Some r ->
    exists t, nth_error notes k = Some t /\ csv_notes r = Ok t.
Proof.
  induction 1 as [|r0 t0 results notes H0 _ IH]; intros [|k] r Hr;
    simpl in *; try discriminate.
  - injection Hr as <-. exists t0. auto.
  - exact (IH k r Hr).
Qed.

(** X17. Whenever [save_csv_report] returns, the notes of every result could
    be joined, and the file holds the header and one row for each result, in
    order: the [k]-th result (from 0) is in row [k + 1] with the identifier
    ["p"] followed by [k + 1], its fields (the empty string for a missing
    one) and its notes text.  An empty list of results leaves the header
    alone.  Whether the writes return is the device's business and is not
    stated. *)
Theorem csv_report_rows (meta : dict) (results : list dict) (filename : string)
  (fs : filesystem) :
  snd (save_csv_report meta results filename fs) = Ok tt ->
  exists rows,
    read_rows (fst (save_csv_report meta results filename fs)) filename
    = Some (csv_header :: rows)
    /\ List.length rows = List.length results
    /\ (forall k r,
           nth_error results k = Some r ->
           exists t,
             csv_notes r = Ok t
             /\ nth_error rows k = Some (csv_cells (1 + Z.of_nat k) r t))
    /\ (results = [] -> rows = []).
Proof.
  intros Hret.
  destruct (save_csv_report_returned meta results filename fs Hret)
    as (_ & notes & Hnotes & Hrows).
  exists (csv_numbered 1 results notes).
  split; [exact Hrows|]. split; [|split].
  - apply csv_numbered_length. eapply Forall2_length. exact Hnotes.
  - intros k r Hr.
    destruct (notes_nth results notes Hnotes k r Hr) as (t & Ht & Hjoin).
    exists t. split; [exact Hjoin | now apply csv_numbered_nth].
  - intros ->. inversion Hnotes. reflexivity.
Qed.

Lemma str_items_from_strings (ns : list string) :
  forall i, str_items_from i (map VStr ns) = Ok ns.
Proof.
  induction ns as [|n ns IH]; intros i; cbn [map str_items_from]; [reflexivity|].
  now rewrite IH.
Qed.

Lemma str_items_strings (ns : list string) : str_items (map VStr ns) = Ok ns.
Proof. apply str_items_from_strings. Qed.

Lemma csv_notes_strings (r : dict) (ns : list string) :
  dict_get r "notes" = Some (VList (map VStr ns)) ->
  csv_notes r = Ok (str_join " | " ns).
Proof.
  intros H. unfold csv_notes, dict_get_default. rewrite H.
  destruct ns as [|n ns]; [reflexivity|].
  cbn [map truthy]. unfold py_join.
  change (VStr n :: map VStr ns) with (map VStr (n :: ns)).
  now rewrite str_items_strings.
Qed.

(** C9. Whenever [save_csv_report] returns, the file holds the header row
    [password_id, password_masked, length, entropy_bits, guesses, score,
    notes] and then one row for each result, in the order of the list and
    as many as the list has: for an empty list the header and nothing else.
    The row of the [k]-th result, counted from 1, starts with the identifier
    ["p"] followed by [k] in decimal, has five more cells, and ends with the
    notes of the result, which are its list of strings joined by [" | "]. *)
Theorem csv_report_contents (meta : dict) (results : list dict) (filename : string)
  (fs : filesystem) :
  snd (save_csv_report meta results filename fs) = Ok tt ->
  exists rows,
    read_rows (fst (save_csv_report meta results filename fs)) filename
    = Some (map VStr [ "password_id"; "password_masked"; "length"; "entropy_bits";
                       "guesses"; "score"; "notes" ] :: rows)
    /\ (results = [] -> rows = [])
    /\ List.length rows = List.length results
    /\ forall k r,
         nth_error results k = Some r ->
         exists id cells notes,
           nth_error rows k = Some (VStr ("p" ++ id) :: cells ++ [VStr notes])%list
           /\ writes_integer (Z.of_nat k + 1) id
           /\ List.length cells = 5%nat
           /\ csv_notes r = Ok notes
           /\ forall ns,
                dict_get r "notes" = Some (VList (map VStr ns)) ->
                notes = str_join " | " ns.
Proof.
  intros Hret.
  destruct (save_csv_report_returned meta results filename fs Hret)
    as (_ & notes & Hnotes & Hrows).
  exists (csv_numbered 1 results notes).
  split; [exact Hrows|]. split; [|split].
  - intros ->. inversion Hnotes. reflexivity.
  - apply csv_numbered_length. eapply Forall2_length. exact Hnotes.
  - intros k r Hr.
    destruct (notes_nth results notes Hnotes k r Hr) as (t & Ht & Hjoin).
    exists (dec_of_Z (1 + Z.of_nat k)),
           [ dict_get_default r "password_masked" (VStr "");
             dict_get_default r "length" (VStr "");
             dict_get_default r "entropy_bits" (VStr "");
             dict_get_default r "guesses" (VStr "");
             dict_get_default r "score" (VStr "") ],
           t.
    split; [exact (csv_numbered_nth results notes 1 k r t Hr Ht)|].
    split; [rewrite Z.add_comm; apply dec_of_Z_writes; lia|].
    split; [reflexivity|]. split; [exact Hjoin|].
    intros ns Hns. rewrite (csv_notes_strings r ns Hns) in Hjoin. congruence.
Qed.

(** X18. When the file cannot be opened, [save_csv_report] raises [OSError]
    and leaves every file as it was: nothing is created or emptied. *)
Theorem csv_report_denied (meta : dict) (results : list dict) (filename : string)
  (fs : filesystem) :
  fs_denied fs filename = true ->
  snd (save_csv_report meta results filename fs)
  = Raise (OSError ("[Errno 13] Permission denied: '" ++ filename ++ "'"))
  /\ fst (save_csv_report meta results filename fs) = fs.
Proof.
  intros H. rewrite (save_csv_report_refused meta results filename fs H). auto.
Qed.


(** X20. [save_csv_report] touches no file but the one it is given, whether
    it returns or raises. *)
Theorem csv_report_frame (meta : dict) (results : list dict) (filename other : string)
  (fs : filesystem) :
  other <> filename ->
  read_rows (fst (save_csv_report meta results filename fs)) other = read_rows fs other.
Proof.
  intros Hne.
  destruct (fs_denied fs filename) eqn:Hd.
  - now rewrite (save_csv_report_refused meta results filename fs Hd).
  - rewrite (save_csv_report_opened meta results filename fs Hd).
    rewrite write_results_frame, writerow_frame, open_w_frame by exact Hne.
    reflexivity.
Qed.

(** X21. What the file held before does not show in the report: two runs of
    [save_csv_report] on the same results, from any two states in which the
    file can be opened, end with the same outcome and the same rows. *)
Theorem csv_report_overwrites (meta : dict) (results : list dict) (filename : string)
  (fs1 fs2 : filesystem) :
  fs_denied fs1 filename = false ->
  fs_denied fs2 filename = false ->
  snd (save_csv_report meta results filename fs1)
  = snd (save_csv_report meta results filename fs2)
  /\ read_rows (fst (save_csv_report meta results filename fs1)) filename
     = read_rows (fst (save_csv_report meta results filename fs2)) filename.
Proof.
  intros H1 H2.
  rewrite (save_csv_report_opened meta results filename fs1 H1).
  rewrite (save_csv_report_opened meta results filename fs2 H2).
  apply write_results_agree.
  destruct (open_w_allowed filename fs1 H1) as [_ Ho1].
  destruct (open_w_allowed filename fs2 H2) as [_ Ho2].
  destruct (writerow_rows filename csv_header _ [] Ho1) as [_ Hh1].
  destruct (writerow_rows filename csv_header _ [] Ho2) as [_ Hh2].
  now rewrite Hh1, Hh2.
Qed.

(** The error of the first item that is not a string. *)
Lemma str_items_from_not_string (before : list string) (v : pyval) (after : list pyval) :
  (forall s, v <> VStr s) ->
  forall i,
    str_items_from i (map VStr before ++ v :: after)
    = Raise (TypeError ("sequence item " ++ dec_of_Z (i + Z.of_nat (List.length before))
                        ++ ": expected str instance, " ++ type_name v ++ " found")).
Proof.
  intros Hv. induction before as [|b before IH]; intros i.
  - cbn [map app List.length Z.of_nat]. rewrite Z.add_0_r.
    destruct v; try reflexivity. now destruct (Hv s).
  - cbn [map app str_items_from]. rewrite IH. cbn [bind].
    replace (i + 1 + Z.of_nat (List.length before))
      with (i + Z.of_nat (List.length (b :: before))); [reflexivity|].
    cbn [List.length]. lia.
Qed.

(** X22. The notes text of a row, for every value that the key ["notes"] can
    hold.  A list of strings gives them joined by [" | "].  A missing key and
    the values that count as false ([None], [False], zero as an integer or a
    float, the empty string, list and dictionary) give the empty string.
    A string gives its characters joined by [" | "] and a dictionary its
    keys.  [True] and a number other than zero (a NaN too) raise [TypeError]
    "can only join an iterable".  A list whose first item that is not a
    string is [v], at index [i], raises [TypeError] "sequence item [i]:
    expected str instance, [T] found", where [T] names the type of [v]. *)
Theorem csv_notes_cases (r : dict) :
  (forall ns, dict_get r "notes" = Some (VList (map VStr ns)) ->
              csv_notes r = Ok (str_join " | " ns))
  /\ (dict_get r "notes" = None \/ dict_get r "notes" = Some VNone
      \/ dict_get r "notes" = Some (VBool false) \/ dict_get r "notes" = Some (VInt 0)
      \/ (exists f, dict_get r "notes" = Some (VFloat f) /\ (f =? 0)%float = true)
      \/ dict_get r "notes" = Some (VStr "") \/ dict_get r "notes" = Some (VList [])
      \/ dict_get r "notes" = Some (VDict []) ->
      csv_notes r = Ok "")
  /\ (forall s, dict_get r "notes" = Some (VStr s) ->
                csv_notes r = Ok (str_join " | " (chars s)))
  /\ (forall d, dict_get r "notes" = Some (VDict d) ->
                csv_notes r = Ok (str_join " | " (map fst d)))
  /\ (dict_get r "notes" = Some (VBool true)
      \/ (exists z, dict_get r "notes" = Some (VInt z) /\ z <> 0)
      \/ (exists f, dict_get r "notes" = Some (VFloat f) /\ (f =? 0)%float = false) ->
      csv_notes r = Raise (TypeError "can only join an iterable"))
  /\ (forall before v after,
         dict_get r "notes" = Some (VList (map VStr before ++ v :: after)) ->
         (forall s, v <> VStr s) ->
         csv_notes r
         = Raise (TypeError ("sequence item " ++ dec_of_Z (Z.of_nat (List.length before))
                             ++ ": expected str instance, " ++ type_name v ++ " found"))).
Proof.
  split; [apply csv_notes_strings|]. unfold csv_notes, dict_get_default.
  repeat split.
  - intros [H|[H|[H|[H|[(f & H & Hf)|[H|[H|H]]]]]]]; rewrite H; try reflexivity.
    cbn [truthy]. now rewrite Hf.
  - intros s H. rewrite H. destruct s; reflexivity.
  - intros d H. rewrite H. destruct d; reflexivity.
  - intros [H|[(z & H & Hz)|(f & H & Hf)]]; rewrite H; cbn [truthy].
    + reflexivity.
    + apply Z.eqb_neq in Hz. now rewrite Hz.
    + now rewrite Hf.
  - intros before v after H Hv. rewrite H.
    pose proof (str_items_from_not_string before v after Hv 0) as Hitems.
    rewrite Z.add_0_l in Hitems.
    replace (truthy (VList (map VStr before ++ v :: after))) with true
      by (destruct before; reflexivity).
    unfold py_join, str_items. now rewrite Hitems.
Qed.

(** ** The frequency table and the entropy formula *)

Lemma mem_in (x : string) (l : list string) : str_list_mem x l = true <-> In x l.
Proof.
  unfold str_list_mem. rewrite existsb_exists. split.
  - intros (y & Hy & E). apply String.eqb_eq in E. now subst.
  - intros H. exists x. split; [exact H | apply String.eqb_refl].
Qed.

Lemma mem_not_in (x : string) (l : list string) : str_list_mem x l = false <-> ~ In x l.
Proof.
  rewrite <- mem_in. destruct (str_list_mem x l); split; congruence.
Qed.

Lemma mem_app (x : string) (l1 l2 : list string) :
  str_list_mem x (l1 ++ l2) = str_list_mem x l1 || str_list_mem x l2.
Proof. unfold str_list_mem. apply existsb_app. Qed.

Lemma dict_get_absent {V : Type} (d : list (string * V)) (x : string) :
  ~ In x (map fst d) -> dict_get d x = None.
Proof.
  induction d as [|[k v] d IH]; simpl; intros H; [reflexivity|].
  destruct (String.eqb_spec x k) as [->|Hne]; [tauto|]. apply IH. tauto.
Qed.

Lemma dict_set_absent {V : Type} (d : list (string * V)) (x : string) (v : V) :
  ~ In x (map fst d) -> dict_set d x v = (d ++ [(x, v)])%list.
Proof.
  induction d as [|[k v'] d IH]; simpl; intros H; [reflexivity|].
  destruct (String.eqb_spec x k) as [->|Hne]; [tauto|]. rewrite IH; tauto.
Qed.

Lemma map_bump_absent (x : string) (freq : list (string * Z)) :
  ~ In x (map fst freq) -> map (bump x) freq = freq.
Proof.
  induction freq as [|[k v] freq IH]; simpl; intros H; [reflexivity|].
  unfold bump at 1. simpl.
  destruct (String.eqb_spec x k) as [->|Hne]; [tauto|]. rewrite IH; tauto.
Qed.

(** A step of the loop at a key of the table adds one to its count. *)
Lemma count_step_present (freq : list (string * Z)) (x : string) :
  NoDup (map fst freq) -> In x (map fst freq) ->
  count_step freq x = map (bump x) freq.
Proof.
  unfold count_step. induction freq as [|[k v] freq IH]; simpl; intros Hnd Hin; [tauto|].
  inversion Hnd as [|? ? Hk Hnd']; subst.
  unfold bump at 1, dict_get_default. simpl.
  destruct (String.eqb_spec x k) as [->|Hne].
  - rewrite map_bump_absent by exact Hk. reflexivity.
  - f_equal. destruct Hin as [E|Hin]; [congruence|].
    apply IH; assumption.
Qed.

(** A step of the loop at a new character appends it with the count 1. *)
Lemma count_step_absent (freq : list (string * Z)) (x : string) :
  ~ In x (map fst freq) -> count_step freq x = (freq ++ [(x, 1)])%list.
Proof.
  intros H. unfold count_step, dict_get_default.
  rewrite dict_get_absent by exact H. now apply dict_set_absent.
Qed.

Lemma map_fst_bump (x : string) (freq : list (string * Z)) :
  map fst (map (bump x) freq) = map fst freq.
Proof.
  induction freq as [|[k v] freq IH]; simpl; [reflexivity|].
  rewrite IH. unfold bump. simpl. destruct (String.eqb x k); reflexivity.
Qed.

Lemma occurrences_cons_other (c x : string) (l : list string) :
  c <> x -> occurrences c (x :: l) = occurrences c l.
Proof. intros H. simpl. apply String.eqb_neq in H. now rewrite H. Qed.

Lemma occurrences_cons_same (x : string) (l : list string) :
  occurrences x (x :: l) = 1 + occurrences x l.
Proof. simpl occurrences. now rewrite String.eqb_refl. Qed.

Lemma filter_distinct_cons_present (keys : list string) (x : string) (l : list string) :
  In x keys ->
  filter (fun c => negb (str_list_mem c keys)) (distinct (x :: l))
  = filter (fun c => negb (str_list_mem c keys)) (distinct l).
Proof.
  intros Hin. simpl.
  assert (Hx : str_list_mem x keys = true) by now apply mem_in.
  rewrite Hx. simpl.
  induction (distinct l) as [|c d IH]; simpl; [reflexivity|].
  destruct (String.eqb_spec c x) as [->|Hne]; simpl.
  - rewrite Hx. simpl. exact IH.
  - destruct (str_list_mem c keys); simpl; now rewrite IH.
Qed.

Lemma filter_distinct_cons_absent (keys : list string) (x : string) (l : list string) :
  ~ In x keys ->
  filter (fun c => negb (str_list_mem c keys)) (distinct (x :: l))
  = x :: filter (fun c => negb (str_list_mem c (keys ++ [x]))) (distinct l).
Proof.
  intros Hin. simpl.
  assert (Hx : str_list_mem x keys = false) by now apply mem_not_in.
  rewrite Hx. simpl. f_equal.
  induction (distinct l) as [|c d IH]; simpl; [reflexivity|].
  rewrite mem_app. simpl. rewrite orb_false_r.
  destruct (String.eqb_spec c x) as [->|Hne]; simpl.
  - rewrite orb_true_r. simpl. exact IH.
  - rewrite orb_false_r. destruct (str_list_mem c keys); simpl; now rewrite IH.
Qed.

Lemma in_filter_not_mem (keys : list string) (c : string) (d : list string) :
  In c (filter (fun c => negb (str_list_mem c keys)) d) -> ~ In c keys.
Proof.
  intros H. apply filter_In in H. destruct H as [_ H].
  apply negb_true_iff in H. now apply mem_not_in.
Qed.

(** The table after a step and the rest of the characters. *)
Lemma extend_table_step (freq : list (string * Z)) (x : string) (l : list string) :
  NoDup (map fst freq) ->
  extend_table (count_step freq x) l = extend_table freq (x :: l).
Proof.
  intros Hnd. unfold extend_table.
  destruct (in_dec string_dec x (map fst freq)) as [Hin|Hout].
  - rewrite count_step_present by assumption.
    rewrite map_fst_bump, filter_distinct_cons_present by exact Hin.
    f_equal.
    + rewrite map_map. apply map_ext. intros [k v]. unfold bump.
      cbn [fst snd occurrences].
      rewrite (String.eqb_sym k x). destruct (String.eqb x k); cbn [fst snd]; f_equal; lia.
    + apply map_ext_in. intros c Hc. f_equal.
      symmetry. apply occurrences_cons_other.
      intros ->. apply in_filter_not_mem in Hc. tauto.
  - rewrite count_step_absent by exact Hout.
    rewrite filter_distinct_cons_absent by exact Hout.
    rewrite !map_app. cbn [map fst snd].
    rewrite <- app_assoc. f_equal.
    + apply map_ext_in. intros [k v] Hkv. simpl. f_equal. f_equal.
      symmetry. apply occurrences_cons_other.
      intros ->. apply Hout. apply in_map_iff. now exists (x, v).
    + cbn [app]. f_equal;
        [cbn [occurrences]; rewrite String.eqb_refl; reflexivity|].
      apply map_ext_in. intros c Hc. f_equal.
      symmetry. apply occurrences_cons_other.
      intros ->. apply in_filter_not_mem in Hc. apply Hc.
      apply in_or_app. right. now left.
Qed.

Lemma count_step_nodup (freq : list (string * Z)) (x : string) :
  NoDup (map fst freq) -> NoDup (map fst (count_step freq x)).
Proof.
  intros Hnd.
  destruct (in_dec string_dec x (map fst freq)) as [Hin|Hout].
  - rewrite count_step_present by assumption. now rewrite map_fst_bump.
  - rewrite count_step_absent by exact Hout. rewrite map_app. simpl.
    apply NoDup_app; [exact Hnd | constructor; [tauto | constructor] |].
    intros a Ha [<-|[]]. tauto.
Qed.

(** The loop that builds the table, from any table with distinct keys. *)
Lemma count_loop (l : list string) :
  forall freq, NoDup (map fst freq) -> fold_left count_step l freq = extend_table freq l.
Proof.
  induction l as [|x l IH]; intros freq Hnd.
  - simpl. unfold extend_table. simpl. rewrite app_nil_r.
    rewrite <- (map_id freq) at 1. apply map_ext. intros [k v]. simpl. f_equal. lia.
  - simpl fold_left. rewrite IH by now apply count_step_nodup.
    now apply extend_table_step.
Qed.

Lemma count_chars_table (pw : string) :
  count_chars pw = map (fun c => (c, occurrences c (chars pw))) (distinct (chars pw)).
Proof.
  unfold count_chars. change (fun freq ch => dict_set freq ch (dict_get_default freq ch 0 + 1))
    with count_step.
  rewrite count_loop by constructor. unfold extend_table. simpl.
  f_equal. induction (distinct (chars pw)) as [|c d IH]; simpl; [reflexivity | now rewrite IH].
Qed.

Lemma in_distinct (x : string) (l : list string) : In x (distinct l) <-> In x l.
Proof.
  induction l as [|y l IH]; simpl; [tauto|].
  rewrite filter_In, IH, negb_true_iff. split.
  - intros [->|[H _]]; auto.
  - intros [->|H]; [auto|].
    destruct (String.eqb_spec x y) as [->|Hne]; [auto|]. right. split; [exact H|].
    reflexivity.
Qed.

Lemma occurrences_absent (x : string) (l : list string) : ~ In x l -> occurrences x l = 0.
Proof.
  induction l as [|y l IH]; simpl; intros H; [reflexivity|].
  destruct (String.eqb_spec x y) as [->|Hne]; [tauto|]. rewrite IH; tauto.
Qed.

Lemma occurrences_bounds (x : string) (l : list string) :
  0 <= occurrences x l <= Z.of_nat (List.length l).
Proof.
  induction l as [|y l IH]; simpl List.length; simpl occurrences; [lia|].
  destruct (String.eqb x y); lia.
Qed.

Lemma occurrences_present (x : string) (l : list string) : In x l -> 1 <= occurrences x l.
Proof.
  induction l as [|y l IH]; simpl; intros H; [tauto|].
  pose proof (occurrences_bounds x l).
  destruct (String.eqb_spec x y) as [->|Hne]; [lia|].
  destruct H as [->|H]; [congruence|]. specialize (IH H). lia.
Qed.

Lemma chars_length (s : string) : List.length (chars s) = String.length s.
Proof. induction s as [|c s IH]; simpl; [reflexivity | now rewrite IH]. Qed.

(** Summing [f] over a list, apart from the elements equal to [x]. *)
Lemma sum_filter_other (f : string -> Z) (x : string) (d : list string) :
  ~ In x d ->
  sum_Z (map f (filter (fun y => negb (String.eqb y x)) d)) = sum_Z (map f d).
Proof.
  induction d as [|c d IH]; simpl; intros H; [reflexivity|].
  destruct (String.eqb_spec c x) as [->|Hne]; [tauto|]. simpl.
  rewrite IH; tauto.
Qed.

Lemma distinct_nodup (l : list string) : NoDup (distinct l).
Proof.
  induction l as [|x l IH]; simpl; constructor.
  - intros H. apply filter_In in H. destruct H as [_ H].
    rewrite String.eqb_refl in H. discriminate.
  - now apply NoDup_filter.
Qed.

Lemma sum_split_at (f : string -> Z) (x : string) (d : list string) :
  NoDup d -> In x d ->
  sum_Z (map f d) = f x + sum_Z (map f (filter (fun y => negb (String.eqb y x)) d)).
Proof.
  induction d as [|c d IH]; simpl; intros Hnd Hin; [tauto|].
  inversion Hnd as [|? ? Hc Hnd']; subst.
  destruct (String.eqb_spec c x) as [->|Hne]; simpl.
  - rewrite sum_filter_other by exact Hc. reflexivity.
  - destruct Hin as [->|Hin]; [congruence|]. rewrite (IH Hnd' Hin). lia.
Qed.

(** The counts of the distinct elements add up to the length. *)
Lemma sum_occurrences (l : list string) :
  sum_Z (map (fun c => occurrences c l) (distinct l)) = Z.of_nat (List.length l).
Proof.
  induction l as [|x l IH]; [reflexivity|].
  cbn [distinct map]. unfold sum_Z in *. cbn [fold_right].
  rewrite occurrences_cons_same.
  replace (map (fun c => occurrences c (x :: l))
             (filter (fun y => negb (String.eqb y x)) (distinct l)))
    with (map (fun c => occurrences c l)
            (filter (fun y => negb (String.eqb y x)) (distinct l))).
  2:{ apply map_ext_in. intros c Hc. symmetry. apply occurrences_cons_other.
      apply filter_In in Hc. destruct Hc as [_ Hc].
      apply negb_true_iff in Hc. now apply String.eqb_neq. }
  destruct (in_dec string_dec x l) as [Hin|Hout].
  - pose proof (sum_split_at (fun c => occurrences c l) x (distinct l)
                  (distinct_nodup l) (proj2 (in_distinct x l) Hin)) as Hsplit.
    unfold sum_Z in Hsplit. rewrite Hsplit in IH.
    cbn [List.length]. rewrite Nat2Z.inj_succ. lia.
  - pose proof (sum_filter_other (fun c => occurrences c l) x (distinct l)) as Hsame.
    unfold sum_Z in Hsame. rewrite Hsame by (rewrite in_distinct; exact Hout).
    rewrite occurrences_absent by exact Hout.
    cbn [List.length]. rewrite Nat2Z.inj_succ. lia.
Qed.

(** X23. The frequency table of the entropy function lists each distinct
    character of the password once, in order of first occurrence, with the
    number of its occurrences; every count is at least 1 and at most the
    length, and the counts add up to the length. *)
Theorem count_chars_spec (pw : string) :
  count_chars pw = map (fun c => (c, occurrences c (chars pw))) (distinct (chars pw))
  /\ (forall c n, In (c, n) (count_chars pw) -> 1 <= n <= Z.of_nat (String.length pw))
  /\ sum_Z (map snd (count_chars pw)) = Z.of_nat (String.length pw).
Proof.
  rewrite count_chars_table. split; [reflexivity|]. split.
  - intros c n H. apply in_map_iff in H. destruct H as (c' & E & Hc).
    injection E as <- <-. apply (proj1 (in_distinct c' (chars pw))) in Hc.
    pose proof (occurrences_present c' (chars pw) Hc) as Hlo.
    pose proof (occurrences_bounds c' (chars pw)) as Hhi.
    rewrite chars_length in Hhi. lia.
  - rewrite map_map. simpl. rewrite sum_occurrences. now rewrite chars_length.
Qed.

Section FormulaFacts.

Variable libm_log2 : float -> float.

Lemma entropy_step_term (pw : string) (acc : result float) (c : string) :
  entropy_step libm_log2 (Z.of_nat (String.length pw)) acc (occurrences c (chars pw))
  = entropy_term libm_log2 pw acc c.
Proof.
  unfold entropy_step, entropy_term.
  destruct acc as [s|e]; [|reflexivity]. simpl.
  destruct (int_truediv (occurrences c (chars pw)) (Z.of_nat (String.length pw)))
    as [p|e]; [|reflexivity]. simpl.
  destruct (math_log2 libm_log2 p) as [l|e]; [|reflexivity]. simpl.
  now rewrite sub_add_opp.
Qed.

Lemma entropy_fold_terms (pw : string) (d : list string) (acc : result float) :
  fold_left (entropy_step libm_log2 (Z.of_nat (String.length pw)))
    (map (fun c => occurrences c (chars pw)) d) acc
  = fold_left (entropy_term libm_log2 pw) d acc.
Proof.
  revert acc. induction d as [|c d IH]; intros acc; [reflexivity|].
  cbn [map fold_left]. rewrite entropy_step_term. apply IH.
Qed.

(** X24. The entropy function computes the formula of its docstring: the
    length times the sum, over the distinct characters in order of first
    occurrence, of [-p * log2(p)] for the frequency [p] of the character,
    and 0 for the empty string; it raises where the formula does. *)
Theorem shannon_entropy_is_formula (pw : string) :
  _shannon_entropy_bits libm_log2 pw = shannon_formula libm_log2 pw.
Proof.
  destruct pw as [|a pw]; [reflexivity|].
  unfold _shannon_entropy_bits, shannon_formula.
  change (String.eqb (String a pw) "") with false. cbv iota.
  rewrite count_chars_table, map_map. cbn [snd].
  rewrite entropy_fold_terms.
  destruct (fold_left (entropy_term libm_log2 (String a pw))
              (distinct (chars (String a pw))) (Ok 0%float)) as [s|e]; [|reflexivity].
  unfold bind.
  destruct (float_of_int (Z.of_nat (String.length (String a pw)))) as [n|e];
    [|reflexivity].
  now rewrite mul_comm.
Qed.

(** C4. The Shannon entropy that the code computes is the length times the
    sum over the distinct characters [c] of [-p * log2(p)], for
    [p = count(c) / length], and 0 for the empty string.  With a [log2] that
    is exact at 1 and at 1/4, as those of the C libraries are, the entropy
    of ["aaaa"] is 0.0 and that of ["abcd"] is 8.0, within the tolerances
    1e-6 and 0.1 (the doubles [0x1.0c6f7a0b5ed8dp-20] and
    [0x1.999999999999ap-4]). *)
Theorem shannon_entropy_formula_and_examples :
  (forall pw, _shannon_entropy_bits libm_log2 pw = shannon_formula libm_log2 pw)
  /\ _shannon_entropy_bits libm_log2 "" = Ok 0%float
  /\ (libm_log2 1%float = 0%float ->
      exists e,
        _shannon_entropy_bits libm_log2 "aaaa" = Ok e
        /\ (abs (e - 0) <=? 0x1.0c6f7a0b5ed8dp-20)%float = true)
  /\ (libm_log2 0.25%float = (-2)%float ->
      exists e,
        _shannon_entropy_bits libm_log2 "abcd" = Ok e
        /\ (abs (e - 8) <=? 0x1.999999999999ap-4)%float = true).
Proof.
  split; [|split; [reflexivity|split]].
  - intros pw. destruct pw as [|a pw]; [reflexivity|].
    unfold _shannon_entropy_bits, shannon_formula.
    change (String.eqb (String a pw) "") with false. cbv iota.
    rewrite count_chars_table, map_map. cbn [snd].
    rewrite entropy_fold_terms.
    destruct (fold_left (entropy_term libm_log2 (String a pw))
                (distinct (chars (String a pw))) (Ok 0%float)) as [s|e]; [|reflexivity].
    unfold bind.
    destruct (float_of_int (Z.of_nat (String.length (String a pw)))) as [n|e];
      [|reflexivity].
    now rewrite mul_comm.
  - intros Hlog. eexists. split.
    + apply (shannon_uniform libm_log2 "aaaa" 4 1 1%float 0%float 4%float).
      * discriminate.
      * vm_compute. reflexivity.
      * vm_compute. reflexivity.
      * apply math_log2_at; try reflexivity. exact Hlog.
      * vm_compute. reflexivity.
    + vm_compute. reflexivity.
  - intros Hlog. eexists. split.
    + apply (shannon_uniform libm_log2 "abcd" 1 4 0.25%float (-2)%float 4%float).
      * discriminate.
      * vm_compute. reflexivity.
      * vm_compute. reflexivity.
      * apply math_log2_at; try reflexivity. exact Hlog.
      * vm_compute. reflexivity.
    + vm_compute. reflexivity.
Qed.

End FormulaFacts.

(** ** From the command line to the report *)

Section CliReport.

Variable libm_log2 : float -> float.
Variable libm_pow : float -> float -> float.
Variable _HAS_ZXCVBN : bool.
Variable zxcvbn : string -> result (list (string * num)).
Variable float_of_str : string -> result float.

Local Abbreviation analyze := (analyze_password libm_log2 libm_pow _HAS_ZXCVBN zxcvbn).
Local Abbreviation entry :=
  (cli_entry libm_log2 libm_pow _HAS_ZXCVBN zxcvbn float_of_str).
Local Abbreviation results_of :=
  (cli_results libm_log2 libm_pow _HAS_ZXCVBN zxcvbn float_of_str).

(** The row of an entry of the loop: its notes can be joined, and it starts
    with the mask and the length of the password. *)
Lemma entry_row (args : cli_args) (pw : string) (r' : dict) :
  entry args pw = Returned r' ->
  exists t, csv_notes r' = Ok t /\ forall i, masked_row i pw (csv_cells i r' t).
Proof.
  intros H.
  destruct (analyze pw) as [r|ex] eqn:Hr;
    [|unfold cli_entry in H; rewrite Hr in H; discriminate].
  pose proof Hr as Hinv. apply analyze_ok_inv in Hinv.
  destruct Hinv as (est & gv & Hest & Hgv & ->).
  apply estimated_shape in Hest.
  destruct Hest as ((g & Hg) & _ & (notes & Hn & _)).
  rewrite Hg in Hgv. simpl in Hgv. bind_inv Hgv. injection Hgv as <-.
  rewrite (cli_entry_after_analysis _ _ _ _ _ args pw est a Hr) in H.
  destruct (float_of_int a) as [gf|ex]; [|discriminate].
  injection H as <-.
  exists (str_join " | " notes). split.
  - apply csv_notes_strings. simpl. now rewrite Hn.
  - intros i. eexists. reflexivity.
Qed.

Lemma entries_rows (args : cli_args) (passwords : list string) (rs : list dict) :
  Forall2 (fun pw r => entry args pw = Returned r) passwords rs ->
  exists notes,
    Forall2 (fun r t => csv_notes r = Ok t) rs notes
    /\ forall i k pw,
        nth_error passwords k = Some pw ->
        exists row,
          nth_error (csv_numbered i rs notes) k = Some row
          /\ masked_row (i + Z.of_nat k) pw row.
Proof.
  induction 1 as [|pw r passwords rs Hentry _ (notes & Hnotes & Hrows)].
  - exists []. split; [constructor|]. intros i [|k] pw H; discriminate.
  - destruct (entry_row args pw r Hentry) as (t & Ht & Hmask).
    exists (t :: notes). split; [now constructor|].
    intros i [|k] pw' Hk; simpl in Hk.
    + injection Hk as <-. eexists. split; [reflexivity|].
      rewrite Z.add_0_r. apply Hmask.
    + destruct (Hrows (i + 1) k pw' Hk) as (row & Hrow & Hm).
      exists row. split; [exact Hrow|].
      replace (i + Z.of_nat (S k)) with (i + 1 + Z.of_nat k) by lia. exact Hm.
Qed.

(** X25. The results of the command-line loop fit the report: the notes of
    every one of them can be joined, so that the join in [save_csv_report]
    does not raise on them; and whenever [save_csv_report] returns on them,
    the file holds the header and one row for each password, in order, that
    starts with the identifier, the mask of the password and its length.
    Whether the file opens and the writes return is not stated. *)
Theorem cli_results_report (args : cli_args) (rs : list dict) :
  results_of args = Returned rs ->
  (exists notes, Forall2 (fun r t => csv_notes r = Ok t) rs notes)
  /\ forall (meta : dict) (filename : string) (fs : filesystem),
       snd (save_csv_report meta rs filename fs) = Ok tt ->
       exists rows,
         read_rows (fst (save_csv_report meta rs filename fs)) filename
         = Some (csv_header :: rows)
         /\ List.length rows = List.length (args_passwords args)
         /\ forall k pw,
              nth_error (args_passwords args) k = Some pw ->
              exists row,
                nth_error rows k = Some row /\ masked_row (1 + Z.of_nat k) pw row.
Proof.
  intros Hrs. unfold cli_results in Hrs.
  apply cli_loop_returned in Hrs. destruct Hrs as (rs' & E & Hentries).
  simpl in E. subst rs'.
  destruct (entries_rows args _ rs Hentries) as (notes & Hnotes & Hrows).
  split; [exists notes; exact Hnotes|].
  intros meta filename fs Hret.
  destruct (save_csv_report_returned meta rs filename fs Hret) as (Hd & _).
  exists (csv_numbered 1 rs notes).
  destruct (save_csv_report_numbered meta rs notes filename fs Hd Hnotes) as [_ Hfile].
  split; [exact Hfile|]. split.
  - rewrite csv_numbered_length by (eapply Forall2_length; exact Hnotes).
    symmetry. eapply Forall2_length. exact Hentries.
  - intros k pw Hk. apply Hrows. exact Hk.
Qed.

End CliReport.

(** ** The further properties at concrete inputs

    The C library is [RefLibm]; the estimators are [sample_zxcvbn] and
    [eager_zxcvbn]. *)

Lemma analysis_result_shape_witness :
  exists r,
    analyze_password RefLibm.log2 RefLibm.pow false sample_zxcvbn "P@ssw0rd!" = Ok r
    /\ map fst r = [ "password_masked"; "length"; "has_upper"; "has_lower"; "has_digit";
                     "has_symbol"; "charset_size_est"; "entropy_bits"; "guesses"; "score";
                     "notes" ]
    /\ (exists z, dict_get r "guesses" = Some (VInt z))
    /\ (exists s, dict_get r "score" = Some (VInt s))
    /\ (exists notes,
           dict_get r "notes" = Some (VList (map VStr notes))
           /\ (List.length notes <= 1)%nat).
Proof.
  eexists. split; [vm_compute; reflexivity|].
  apply (analysis_result_shape RefLibm.log2 RefLibm.pow false sample_zxcvbn "P@ssw0rd!").
  vm_compute. reflexivity.
Defined.

Lemma shannon_overflow_not_recovered_witness :
  _shannon_entropy_bits RefLibm.log2 hex_password = Ok 1280%float
  /\ RefLibm.pow 2%float 1280%float = infinity
  /\ analyze_password RefLibm.log2 RefLibm.pow false sample_zxcvbn hex_password
     = Raise (OverflowError "(34, 'Numerical result out of range')")
  /\ analyze_password RefLibm.log2 RefLibm.pow true sample_zxcvbn hex_password
     = Raise (OverflowError "(34, 'Numerical result out of range')").
Proof.
  split; [vm_compute; reflexivity|]. split; [vm_compute; reflexivity|]. split.
  - apply (shannon_overflow_not_recovered RefLibm.log2 RefLibm.pow false sample_zxcvbn
             hex_password 1280%float).
    + left. reflexivity.
    + vm_compute. reflexivity.
    + reflexivity.
    + reflexivity.
    + vm_compute. reflexivity.
  - apply (shannon_overflow_not_recovered RefLibm.log2 RefLibm.pow true sample_zxcvbn
             hex_password 1280%float).
    + right. eexists. vm_compute. reflexivity.
    + vm_compute. reflexivity.
    + reflexivity.
    + reflexivity.
    + vm_compute. reflexivity.
Defined.

Lemma estimator_failure_recovered_witness :
  sample_zxcvbn "abcd" = Raise (EstimatorError "estimator failed")
  /\ exists r,
      analyze_password RefLibm.log2 RefLibm.pow true sample_zxcvbn "abcd" = Ok r
      /\ dict_get r "guesses" = Some (VInt 256)
      /\ dict_get r "notes"
         = Some (VList [VStr "zxcvbn error: estimator failed; falling back to Shannon entropy"]).
Proof.
  split; [reflexivity|]. eexists. split.
  - apply (estimator_failure_recovered RefLibm.log2 RefLibm.pow true sample_zxcvbn "abcd"
             (EstimatorError "estimator failed") 8%float 256%float 256).
    + reflexivity.
    + left. reflexivity.
    + vm_compute. reflexivity.
    + vm_compute. reflexivity.
    + vm_compute. reflexivity.
  - split; vm_compute; reflexivity.
Defined.

Lemma estimator_answer_dropped_on_overflow_witness :
  eager_zxcvbn "abcd" = Ok [("entropy", NFloat 2000); ("guesses", NInt 5); ("score", NInt 1)]
  /\ exists r,
      analyze_password RefLibm.log2 RefLibm.pow true eager_zxcvbn "abcd" = Ok r
      /\ dict_get r "guesses" = Some (VInt 256)
      /\ dict_get r "entropy_bits" = Some (VFloat 8)
      /\ dict_get r "notes"
         = Some (VList [VStr ("zxcvbn error: (34, 'Numerical result out of range')"
                              ++ "; falling back to Shannon entropy")]).
Proof.
  split; [reflexivity|]. eexists. split.
  - apply (estimator_answer_dropped_on_overflow RefLibm.log2 RefLibm.pow true eager_zxcvbn
             "abcd" [("entropy", NFloat 2000); ("guesses", NInt 5); ("score", NInt 1)]
             8%float 2000%float 256%float
             (OverflowError "(34, 'Numerical result out of range')") 256).
    + reflexivity.
    + reflexivity.
    + vm_compute. reflexivity.
    + reflexivity.
    + vm_compute. reflexivity.
    + vm_compute. reflexivity.
    + vm_compute. reflexivity.
  - repeat split; vm_compute; reflexivity.
Defined.

Lemma estimator_answer_used_witness :
  exists r,
    analyze_password RefLibm.log2 RefLibm.pow true sample_zxcvbn "password" = Ok r
    /\ dict_get r "entropy_bits" = Some (VFloat 22)
    /\ dict_get r "guesses" = Some (VInt 3)
    /\ dict_get r "score" = Some (VInt 0)
    /\ dict_get r "notes" = Some (VList []).
Proof.
  eexists. split.
  - apply (estimator_answer_used RefLibm.log2 RefLibm.pow true sample_zxcvbn "password"
             [("guesses", NInt 3); ("score", NInt 0)] (NInt 3) (NInt 0)
             22%float 4194304%float 3%float 0 3).
    + reflexivity.
    + reflexivity.
    + reflexivity.
    + reflexivity.
    + reflexivity.
    + vm_compute. reflexivity.
    + vm_compute. reflexivity.
    + vm_compute. reflexivity.
    + reflexivity.
    + vm_compute. reflexivity.
  - repeat split; vm_compute; reflexivity.
Defined.

Lemma analysis_classes_independent_witness :
  exists ra rb,
    analyze_password RefLibm.log2 RefLibm.pow false sample_zxcvbn "password" = Ok ra
    /\ analyze_password RefLibm.log2 RefLibm.pow true sample_zxcvbn "password" = Ok rb
    /\ dict_get ra "guesses" <> dict_get rb "guesses"
    /\ dict_get ra "charset_size_est" = dict_get rb "charset_size_est".
Proof.
  eexists. eexists.
  split; [vm_compute; reflexivity|]. split; [vm_compute; reflexivity|].
  split; [vm_compute; discriminate|].
  apply (analysis_classes_independent RefLibm.log2 RefLibm.log2 RefLibm.pow RefLibm.pow
           false true sample_zxcvbn sample_zxcvbn "password").
  - vm_compute. reflexivity.
  - vm_compute. reflexivity.
  - simpl. tauto.
Defined.

Lemma select_speed_spec_witness :
  select_speed long_batch_args = 2500%float
  /\ select_speed sample_args = 1e9%float.
Proof.
  split.
  - apply (proj1 (select_speed_spec long_batch_args) 2500%float); reflexivity.
  - apply (proj1 (proj2 (proj2 (select_speed_spec sample_args)))). reflexivity.
Defined.

Lemma cli_entry_extends_analysis_witness :
  exists r',
    cli_entry RefLibm.log2 RefLibm.pow false sample_zxcvbn no_float_of_str
      sample_args "abcd" = Returned r'
    /\ exists r z g,
        analyze_password RefLibm.log2 RefLibm.pow false sample_zxcvbn "abcd" = Ok r
        /\ dict_get r "guesses" = Some (VInt z)
        /\ float_of_int z = Ok g
        /\ r' = (r ++ cli_timing sample_args g)%list.
Proof.
  eexists. split; [vm_compute; reflexivity|].
  apply (cli_entry_extends_analysis RefLibm.log2 RefLibm.pow false sample_zxcvbn
           no_float_of_str sample_args "abcd").
  vm_compute. reflexivity.
Defined.

Lemma cli_entry_errors_witness :
  cli_entry RefLibm.log2 RefLibm.pow false sample_zxcvbn no_float_of_str
    sample_args hex_password
  = Raised (CoreError (OverflowError "(34, 'Numerical result out of range')"))
  /\ exists ex,
      CoreError (OverflowError "(34, 'Numerical result out of range')") = CoreError ex
      /\ (analyze_password RefLibm.log2 RefLibm.pow false sample_zxcvbn hex_password
          = Raise ex
          \/ exists r z,
              analyze_password RefLibm.log2 RefLibm.pow false sample_zxcvbn hex_password
              = Ok r
              /\ dict_get r "guesses" = Some (VInt z)
              /\ float_of_int z = Raise ex).
Proof.
  split; [vm_compute; reflexivity|].
  apply (cli_entry_errors RefLibm.log2 RefLibm.pow false sample_zxcvbn no_float_of_str
           sample_args hex_password).
  vm_compute. reflexivity.
Defined.

Lemma cli_results_in_order_witness :
  exists rs,
    cli_results RefLibm.log2 RefLibm.pow false sample_zxcvbn no_float_of_str sample_args
    = Returned rs
    /\ Forall2
         (fun pw r =>
            cli_entry RefLibm.log2 RefLibm.pow false sample_zxcvbn no_float_of_str
              sample_args pw = Returned r)
         (args_passwords sample_args) rs.
Proof.
  eexists. split; [vm_compute; reflexivity|].
  apply (proj1 (cli_results_in_order RefLibm.log2 RefLibm.pow false sample_zxcvbn
                  no_float_of_str sample_args _)).
  vm_compute. reflexivity.
Defined.

Lemma cli_batch_aborts_witness :
  cli_results RefLibm.log2 RefLibm.pow false sample_zxcvbn no_float_of_str long_batch_args
  = Raised (CoreError (OverflowError "(34, 'Numerical result out of range')")).
Proof.
  apply (cli_batch_aborts RefLibm.log2 RefLibm.pow false sample_zxcvbn no_float_of_str
           long_batch_args ["abcd"] ["P@ssw0rd!"] hex_password).
  - reflexivity.
  - constructor; [|constructor]. eexists. vm_compute. reflexivity.
  - vm_compute. reflexivity.
Defined.

Lemma csv_report_rows_witness :
  snd (save_csv_report [] sample_results "old.csv" sample_fs) = Ok tt
  /\ exists rows,
       read_rows (fst (save_csv_report [] sample_results "old.csv" sample_fs)) "old.csv"
       = Some (csv_header :: rows)
       /\ List.length rows = 2%nat
       /\ (exists t,
              csv_notes [ ("password_masked", VStr "a**d"); ("length", VInt 4);
                          ("notes", VList [VStr "first"; VStr "second"]) ] = Ok t
              /\ nth_error rows 0
                 = Some [ VStr "p1"; VStr "a**d"; VInt 4; VStr ""; VStr ""; VStr "";
                          VStr t ])
       /\ (exists t,
              csv_notes [ ("password_masked", VStr "**") ] = Ok t
              /\ nth_error rows 1
                 = Some [ VStr "p2"; VStr "**"; VStr ""; VStr ""; VStr ""; VStr "";
                          VStr t ]).
Proof.
  split; [reflexivity|].
  destruct (csv_report_rows [] sample_results "old.csv" sample_fs eq_refl)
    as (rows & Hfile & Hlen & Hnth & _).
  exists rows. split; [exact Hfile|]. split; [exact Hlen|]. split.
  - exact (Hnth 0%nat _ eq_refl).
  - exact (Hnth 1%nat _ eq_refl).
Defined.

Lemma csv_report_denied_witness :
  snd (save_csv_report [] sample_results "locked.csv" sample_fs)
  = Raise (OSError "[Errno 13] Permission denied: 'locked.csv'")
  /\ fst (save_csv_report [] sample_results "locked.csv" sample_fs) = sample_fs.
Proof.
  apply (csv_report_denied [] sample_results "locked.csv" sample_fs). reflexivity.
Defined.


Lemma csv_report_frame_witness :
  read_rows (fst (save_csv_report [] sample_results "new.csv" sample_fs)) "old.csv"
  = Some [[VStr "stale"]].
Proof.
  apply (csv_report_frame [] sample_results "new.csv" "old.csv" sample_fs). discriminate.
Defined.

Lemma csv_report_overwrites_witness :
  snd (save_csv_report [] sample_results "old.csv" sample_fs)
  = snd (save_csv_report [] sample_results "old.csv"
           {| fs_files := []; fs_denied := fun _ => false |})
  /\ read_rows (fst (save_csv_report [] sample_results "old.csv" sample_fs)) "old.csv"
     = read_rows
         (fst (save_csv_report [] sample_results "old.csv"
                 {| fs_files := []; fs_denied := fun _ => false |})) "old.csv".
Proof.
  apply (csv_report_overwrites [] sample_results "old.csv" sample_fs
           {| fs_files := []; fs_denied := fun _ => false |}); reflexivity.
Defined.

Lemma csv_notes_cases_witness :
  csv_notes [("notes", VList (map VStr ["first"; "second"]))] = Ok "first | second"
  /\ csv_notes [("password_masked", VStr "**")] = Ok ""
  /\ csv_notes [("notes", VStr "abc")] = Ok "a | b | c"
  /\ csv_notes [("notes", VFloat nan)] = Raise (TypeError "can only join an iterable")
  /\ csv_notes [("notes", VList [VStr "a"; VFloat 1.5; VNone])]
     = Raise (TypeError "sequence item 1: expected str instance, float found").
Proof.
  split; [|split; [|split; [|split]]].
  - exact (proj1 (csv_notes_cases [("notes", VList (map VStr ["first"; "second"]))])
             ["first"; "second"] eq_refl).
  - apply (proj1 (proj2 (csv_notes_cases [("password_masked", VStr "**")]))).
    left. reflexivity.
  - exact (proj1 (proj2 (proj2 (csv_notes_cases [("notes", VStr "abc")]))) "abc" eq_refl).
  - apply (proj1 (proj2 (proj2 (proj2 (proj2 (csv_notes_cases [("notes", VFloat nan)])))))).
    right. right. exists nan. split; reflexivity.
  - apply (proj2 (proj2 (proj2 (proj2 (proj2
             (csv_notes_cases [("notes", VList [VStr "a"; VFloat 1.5; VNone])])))))
             ["a"] (VFloat 1.5) [VNone] eq_refl).
    discriminate.
Defined.

Lemma cli_results_report_witness :
  exists rs,
    cli_results RefLibm.log2 RefLibm.pow false sample_zxcvbn no_float_of_str sample_args
    = Returned rs
    /\ snd (save_csv_report [] rs "new.csv" sample_fs) = Ok tt
    /\ (exists notes, Forall2 (fun r t => csv_notes r = Ok t) rs notes)
    /\ exists rows,
         read_rows (fst (save_csv_report [] rs "new.csv" sample_fs)) "new.csv"
         = Some (csv_header :: rows)
         /\ List.length rows = 2%nat
         /\ exists row, nth_error rows 1 = Some row /\ masked_row 2 "abcd" row.
Proof.
  destruct (cli_results RefLibm.log2 RefLibm.pow false sample_zxcvbn no_float_of_str
              sample_args) as [rs|e] eqn:Hrs; [|vm_compute in Hrs; discriminate].
  assert (snd (save_csv_report [] rs "new.csv" sample_fs) = Ok tt) as Hret.
  { vm_compute in Hrs. injection Hrs as <-. vm_compute. reflexivity. }
  destruct (cli_results_report RefLibm.log2 RefLibm.pow false sample_zxcvbn no_float_of_str
              sample_args rs Hrs) as (Hnotes & Hreport).
  destruct (Hreport [] "new.csv" sample_fs Hret) as (rows & Hfile & Hlen & Hrows).
  exists rs. split; [reflexivity|]. split; [exact Hret|]. split; [exact Hnotes|].
  exists rows. split; [exact Hfile|]. split; [exact Hlen|].
  exact (Hrows 1%nat "abcd" eq_refl).
Defined.

(** ** The claims at concrete inputs

    The C library is [RefLibm] and the estimator [sample_zxcvbn]. *)


Lemma sample_zxcvbn_score_ok : estimator_score_ok sample_zxcvbn.
Proof.
  intros pw zres v s Hz Hv Hs. unfold sample_zxcvbn in Hz.
  destruct (String.eqb pw "password"); [|discriminate].
  injection Hz as <-. simpl in Hv. injection Hv as <-.
  simpl in Hs. injection Hs as <-. lia.
Qed.

Lemma analyze_password_overflows_witness :
  (RefLibm.log2 0.0625%float = (-4)%float /\ RefLibm.pow 2%float 1280%float = infinity)
  /\ analyze_password RefLibm.log2 RefLibm.pow false sample_zxcvbn hex_password
     = Raise (OverflowError "(34, 'Numerical result out of range')")
  /\ analyze_password RefLibm.log2 RefLibm.pow true sample_zxcvbn hex_password
     = Raise (OverflowError "(34, 'Numerical result out of range')").
Proof.
  split; [split; vm_compute; reflexivity|]. split.
  - apply (analyze_password_overflows RefLibm.log2 RefLibm.pow false sample_zxcvbn).
    + vm_compute. reflexivity.
    + vm_compute. reflexivity.
    + left. reflexivity.
  - apply (analyze_password_overflows RefLibm.log2 RefLibm.pow true sample_zxcvbn).
    + vm_compute. reflexivity.
    + vm_compute. reflexivity.
    + right. eexists. vm_compute. reflexivity.
Defined.


Lemma heuristic_score_ladder_witness :
  (exists r,
      analyze_password RefLibm.log2 RefLibm.pow false sample_zxcvbn "abcd" = Ok r
      /\ exists e,
          _shannon_entropy_bits RefLibm.log2 "abcd" = Ok e
          /\ dict_get r "score"
             = Some (VInt (_heuristic_score e (Z.of_nat (String.length "abcd")))))
  /\ (exists r,
         analyze_password RefLibm.log2 RefLibm.pow true sample_zxcvbn "password" = Ok r
         /\ exists s, dict_get r "score" = Some (VInt s) /\ 0 <= s <= 4).
Proof.
  split.
  - eexists. split; [vm_compute; reflexivity|].
    apply (proj1 (proj2 (proj2
             (heuristic_score_ladder RefLibm.log2 RefLibm.pow false sample_zxcvbn)))).
    + vm_compute. reflexivity.
    + left. reflexivity.
  - eexists. split; [vm_compute; reflexivity|].
    apply (proj2 (proj2 (proj2
             (heuristic_score_ladder RefLibm.log2 RefLibm.pow true sample_zxcvbn)))
             sample_zxcvbn_score_ok "password").
    vm_compute. reflexivity.
Defined.

Lemma mask_password_spec_witness :
  String.get 2 (_mask_password "abcd") = Some "*"%char
  /\ String.get 3 (_mask_password "abcd") = Some "d"%char
  /\ _mask_password "a" = "*"
  /\ exists r,
      analyze_password RefLibm.log2 RefLibm.pow false sample_zxcvbn "" = Ok r
      /\ dict_get r "length" = Some (VInt 0)
      /\ dict_get r "entropy_bits" = Some (VFloat 0)
      /\ dict_get r "password_masked" = Some (VStr "").
Proof.
  pose proof (mask_password_spec RefLibm.log2 RefLibm.pow false sample_zxcvbn)
    as (Hlong & Hshort & _ & _ & Hempty & _).
  split; [|split; [|split]].
  - apply (Hlong "abcd" 2%nat); simpl; lia.
  - apply (Hlong "abcd" 3%nat); simpl; lia.
  - apply (Hshort "a"). simpl. lia.
  - apply Hempty. left. reflexivity.
Defined.

Lemma mask_reveals_length_witness :
  exists r,
    analyze_password RefLibm.log2 RefLibm.pow false sample_zxcvbn "P@ssw0rd!" = Ok r
    /\ exists masked,
        dict_get r "password_masked" = Some (VStr masked)
        /\ String.length masked = String.length "P@ssw0rd!"
        /\ dict_get r "length" = Some (VInt (Z.of_nat (String.length "P@ssw0rd!"))).
Proof.
  eexists. split; [vm_compute; reflexivity|].
  apply (proj2 (mask_reveals_length RefLibm.log2 RefLibm.pow false sample_zxcvbn)).
  vm_compute. reflexivity.
Defined.


Lemma shannon_entropy_formula_and_examples_witness :
  RefLibm.log2 1%float = 0%float
  /\ RefLibm.log2 0.25%float = (-2)%float
  /\ (exists e,
         _shannon_entropy_bits RefLibm.log2 "aaaa" = Ok e
         /\ (abs (e - 0) <=? 0x1.0c6f7a0b5ed8dp-20)%float = true)
  /\ (exists e,
         _shannon_entropy_bits RefLibm.log2 "abcd" = Ok e
         /\ (abs (e - 8) <=? 0x1.999999999999ap-4)%float = true).
Proof.
  split; [vm_compute; reflexivity|]. split; [vm_compute; reflexivity|].
  pose proof (shannon_entropy_formula_and_examples RefLibm.log2) as (_ & _ & Ha & Hb).
  split.
  - apply Ha. vm_compute. reflexivity.
  - apply Hb. vm_compute. reflexivity.
Defined.

Lemma csv_report_contents_witness :
  snd (save_csv_report [] sample_results "old.csv" sample_fs) = Ok tt
  /\ exists rows,
       read_rows (fst (save_csv_report [] sample_results "old.csv" sample_fs)) "old.csv"
       = Some (map VStr [ "password_id"; "password_masked"; "length"; "entropy_bits";
                          "guesses"; "score"; "notes" ] :: rows)
       /\ List.length rows = 2%nat
       /\ exists id cells notes,
            nth_error rows 0 = Some (VStr ("p" ++ id) :: cells ++ [VStr notes])%list
            /\ writes_integer 1 id
            /\ notes = "first | second".
Proof.
  split; [reflexivity|].
  destruct (csv_report_contents [] sample_results "old.csv" sample_fs eq_refl)
    as (rows & Hfile & _ & Hlen & Hnth).
  exists rows. split; [exact Hfile|]. split; [exact Hlen|].
  destruct (Hnth 0%nat _ eq_refl) as (id & cells & notes & Hrow & Hid & _ & _ & Hjoin).
  exists id, cells, notes. split; [exact Hrow|]. split; [exact Hid|].
  exact (Hjoin ["first"; "second"] eq_refl).
Defined.
